(** * PDF conversion plugin: submission, callback and polling

    A shallow embedding of [indico_conversion/conversion.py]: the celery
    task [submit_attachment] with its retry schedule, the callback request
    handler [RHConversionFinished._process] and the polling request handler
    [RHConversionCheck._process], together with the few Python built-ins
    they rely on.  State (the status cache, the database session, the
    message broker, the log) is threaded explicitly through a [World]. *)

From Stdlib Require Import ZArith Decimal DecimalString DecimalZ Ascii String.
From Stdlib.Init Require Import Byte.
From stdpp Require Import base option list strings gmap.

Local Open Scope string_scope.
Local Open Scope Z_scope.

(** ** Python built-ins used by the module *)

Module Py.

(** [str(n)] for an [int]: the canonical decimal literal.  (Python
    refuses to print or read literals of more than 4300 digits; ids are
    database integers, far below that.) *)
Definition str (n : Z) : string := NilZero.string_of_int (Z.to_int n).

(** Whitespace skipped by [int()] around the literal (ASCII range). *)
Definition is_space (c : ascii) : bool :=
  let n := nat_of_ascii c in
  ((9 <=? n) && (n <=? 13) || (28 <=? n) && (n <=? 32))%nat.

Fixpoint lstrip (s : string) : string :=
  match s with
  | String c s' => if is_space c then lstrip s' else s
  | EmptyString => EmptyString
  end.

Fixpoint rstrip (s : string) : string :=
  match s with
  | String c s' =>
      match rstrip s' with
      | EmptyString => if is_space c then EmptyString else String c EmptyString
      | t => String c t
      end
  | EmptyString => EmptyString
  end.

Definition strip (s : string) : string := rstrip (lstrip s).

(** The digits of a decimal literal; a single underscore may separate two
    digits.  [prev] tells whether the previous character was a digit. *)
Fixpoint scan_digits (prev : bool) (s : string) : option uint :=
  match s with
  | EmptyString => if prev then Some Nil else None
  | String c s' =>
      if Ascii.eqb c "_"
      then (if prev then scan_digits false s' else None)
      else uint_of_char c (scan_digits true s')
  end.

(** [int(s)] for a [str] of ASCII characters, in base 10; [None] stands
    for [ValueError]. *)
Definition int (s : string) : option Z :=
  match strip s with
  | String "-" r => (fun d => - Z.of_uint d) <$> scan_digits false r
  | String "+" r => Z.of_uint <$> scan_digits false r
  | r => Z.of_uint <$> scan_digits false r
  end.

(** [l[i]]: negative indices count from the end; [None] stands for
    [IndexError]. *)
Definition getitem {A} (l : list A) (i : Z) : option A :=
  let n := Z.of_nat (length l) in
  if (0 <=? i) && (i <? n) then l !! Z.to_nat i
  else if (i <? 0) && (- n <=? i) then l !! Z.to_nat (n + i)
  else None.

(** [needle in s] for strings. *)
Fixpoint contains (needle s : string) : bool :=
  String.prefix needle s ||
  match s with
  | String _ s' => contains needle s'
  | EmptyString => false
  end.

(** Split at the last occurrence of [c]; the separator is dropped. *)
Fixpoint rsplit_char (c : ascii) (s : string) : option (string * string) :=
  match s with
  | EmptyString => None
  | String a s' =>
      match rsplit_char c s' with
      | Some (x, y) => Some (String a x, y)
      | None => if Ascii.eqb a c then Some (EmptyString, s') else None
      end
  end.

(** The leading run of [c] and what follows it. *)
Fixpoint span_char (c : ascii) (s : string) : string * string :=
  match s with
  | String a s' =>
      if Ascii.eqb a c
      then let '(x, y) := span_char c s' in (String a x, y)
      else (EmptyString, s)
  | EmptyString => (EmptyString, EmptyString)
  end.

(** [os.path.splitext] (posix): the extension starts at the last dot of
    the last path component, leading dots of that component not counting. *)
Definition splitext (p : string) : string * string :=
  let '(head, base) :=
    match rsplit_char "/" p with
    | Some (h, b) => (h +:+ "/", b)
    | None => (EmptyString, p)
    end in
  let '(dots, rest) := span_char "." base in
  match rsplit_char "." rest with
  | Some (root, ext) => (head +:+ dots +:+ root, String "." ext)
  | None => (p, EmptyString)
  end.

End Py.

(** ** Backoff schedule *)

Definition MAX_TRIES : Z := 20.
Definition DELAYS : list Z := [30; 60; 120; 300; 600; 1800; 3600; 3600; 7200].

(** The [try: ... except IndexError: ...] block of [submit_attachment]
    that picks the countdown for the retry after a failed attempt;
    [retries] is [task.request.retries], [debug] is [config.DEBUG]. *)
Definition retry_delay (debug : bool) (retries : Z) : option Z :=
  match (if negb debug then Py.getitem DELAYS retries else Some 1) with
  | Some delay => Some delay
  | None => Py.getitem DELAYS (-1)
  end.

(** ** Data model *)

Record User := { user_id : Z }.

Inductive AttachmentType := AttachmentType_file | AttachmentType_link.

Inductive ProtectionMode := ProtectionMode_public | ProtectionMode_inheriting | ProtectionMode_protected.

Record AttachmentFolder := {
  folder_id : Z;
  folder_is_deleted : bool;
  folder_object : Z
}.

Record AttachmentFile := {
  file_user : User;
  filename : string;
  content_type : string;
  file_data : list byte
}.

Record Attachment := {
  id : Z;
  folder : AttachmentFolder;
  user : User;
  title : string;
  description : string;
  type : AttachmentType;
  protection_mode : ProtectionMode;
  acl : list Z;
  is_deleted : bool;
  file : AttachmentFile
}.

(** The payload signed into the correlation token. *)
Record Payload := { attachment_id : Z }.

(** [indico.util.signing.secure_serializer]; [None] from [loads] stands
    for [BadData]. *)
Class SecureSerializer := {
  dumps : Payload -> string -> string;
  loads : string -> string -> option Payload
}.

(** Functions of Indico and of the plugin's other modules that the code
    calls and that are kept abstract. *)
Class Collaborators := {
  url_for_plugin : string -> string;
  secure_filename : string -> string -> string;
  get_pdf_title : Attachment -> string;
  can_view : AttachmentFolder -> option User -> bool;
  render_attachments_folders : Z -> string
}.

(** *** The status cache [pdf_state_cache] *)

Record CacheEntry := { value : string; timeout : option Z }.

Definition cache_get (c : gmap string CacheEntry) (key : string) : option string :=
  value <$> c !! key.

Definition cache_set (key v : string) (t : option Z) (c : gmap string CacheEntry)
  : gmap string CacheEntry :=
  <[key := {| value := v; timeout := t |}]> c.

Definition cache_delete (key : string) (c : gmap string CacheEntry)
  : gmap string CacheEntry :=
  delete key c.

(** *** The database session *)

Record Database := {
  attachments : list Attachment;
  next_id : Z
}.

(** [Attachment.get(id)] *)
Definition Attachment_get (d : Database) (i : Z) : option Attachment :=
  List.find (fun a => id a =? i) (attachments d).

(** [db.session.add(row); db.session.flush()]: the new row, which has
    no id before the flush, gets the next id of the sequence. *)
Definition session_add_flush (row : Z -> Attachment) (d : Database) : Attachment * Database :=
  let a := row (next_id d) in
  (a, {| attachments := attachments d ++ [a]; next_id := next_id d + 1 |}).

(** *** Outbound requests, task messages and the log *)

Record PostData := {
  converter : string;
  urlresponse : string;
  dirresponse : string
}.

Record PostRequest := {
  post_url : string;
  post_data : PostData;
  uploadedfile : string * list byte * string
}.

(** What [requests.post] gives back: it raises, or returns a response. *)
Inductive HttpReply :=
  | TransportError
  | HttpResponse (status_code : Z) (text : string).

(** The message [Task.retry] hands to the broker. *)
Record Signature := { sig_retries : Z; sig_countdown : Z }.

Inductive LogRecord :=
  | Log_giving_up (attachment attempt max_tries : Z)
  | Log_retry_in (attachment attempt max_tries delay : Z)
  | Log_submitted (attachment : Z)
  | Log_invalid_payload (token : string)
  | Log_attachment_deleted (attachment : option Attachment)
  | Log_invalid_status (status : string) (attachment : Z)
  | Log_added_pdf (pdf attachment : Z).

Record World := {
  cache : gmap string CacheEntry;
  session : Database;
  broker : list Signature;
  posted : list PostRequest;
  log : list LogRecord;
  attachment_created : list Attachment
}.

Definition set_cache (f : gmap string CacheEntry -> gmap string CacheEntry) (w : World) : World :=
  {| cache := f (cache w); session := session w; broker := broker w;
     posted := posted w; log := log w; attachment_created := attachment_created w |}.

Definition set_session (d : Database) (w : World) : World :=
  {| cache := cache w; session := d; broker := broker w;
     posted := posted w; log := log w; attachment_created := attachment_created w |}.

Definition apply_async (s : Signature) (w : World) : World :=
  {| cache := cache w; session := session w; broker := broker w ++ [s];
     posted := posted w; log := log w; attachment_created := attachment_created w |}.

Definition requests_post (r : PostRequest) (w : World) : World :=
  {| cache := cache w; session := session w; broker := broker w;
     posted := posted w ++ [r]; log := log w; attachment_created := attachment_created w |}.

Definition logger (r : LogRecord) (w : World) : World :=
  {| cache := cache w; session := session w; broker := broker w;
     posted := posted w; log := log w ++ [r]; attachment_created := attachment_created w |}.

Definition signal_send (a : Attachment) (w : World) : World :=
  {| cache := cache w; session := session w; broker := broker w;
     posted := posted w; log := log w; attachment_created := attachment_created w ++ [a] |}.

(** ** The task queue *)

(** [task.request] *)
Record TaskRequest := { retries : Z }.

Inductive Exception :=
  | MaxRetriesExceeded
  | IndexError
  | ValueError
  | BadRequestKeyError (key : string).

Inductive RetrySignal :=
  | Retry (s : Signature)
  | MaxRetriesExceededError.

(** [max_retries=None] of the [@celery.task] decorator. *)
Definition task_max_retries : option Z := None.

(** celery's [Task.retry(countdown=..., max_retries=...)] for a task run
    by a worker.  The retry is a new message for the same task whose
    [retries] is [task.request.retries + 1]; when a limit is in force and
    that number exceeds it, nothing is sent and [MaxRetriesExceededError]
    is raised; otherwise the message is sent and [Retry] is raised.  A
    [max_retries] argument overrides the task's own limit. *)
Definition Task_retry (request : TaskRequest) (countdown : Z) (max_retries : option Z)
    (w : World) : RetrySignal * World :=
  let retries' := retries request + 1 in
  let limit := match max_retries with Some m => Some m | None => task_max_retries end in
  let s := {| sig_retries := retries'; sig_countdown := countdown |} in
  match limit with
  | Some m =>
      if retries' >? m then (MaxRetriesExceededError, w) else (Retry s, apply_async s w)
  | None => (Retry s, apply_async s w)
  end.

(** How one execution of a task ends. *)
Inductive TaskResult :=
  | Returned
  | Raised_Retry (s : Signature)
  | Raised (e : Exception).

(** What one execution of [submit_attachment] finds around it: the plugin
    settings, [config.DEBUG] and the conversion server's answer to the
    request of this execution. *)
Record Conditions := {
  maintenance : bool;
  server_url : string;
  DEBUG : bool;
  reply : HttpReply
}.

(** ** [submit_attachment] *)

(** The [try] block around [requests.post]: does it raise a
    [RequestException]?  [raise_for_status] raises for 4xx and 5xx. *)
Definition request_failed (r : HttpReply) : bool :=
  match r with
  | TransportError => true
  | HttpResponse code body =>
      ((400 <=? code) && (code <? 600)) || negb (Py.contains "ok" body)
  end.

Definition submit_attachment `{SecureSerializer} `{Collaborators}
    (c : Conditions) (task : TaskRequest) (attachment : Attachment) (w : World)
  : TaskResult * World :=
  if maintenance c then
    match Task_retry task 900 None w with
    | (Retry s, w') => (Raised_Retry s, w')
    | (MaxRetriesExceededError, w') => (Raised MaxRetriesExceeded, w')
    end
  else
    let url := server_url c in
    let payload := {| attachment_id := id attachment |} in
    let data := {| converter := "pdf";
                   urlresponse := url_for_plugin "conversion.callback";
                   dirresponse := dumps payload "pdf-conversion" |} in
    let file := file attachment in
    let '(name, ext) := Py.splitext (filename file) in
    let filename := secure_filename name "attachment" +:+ ext in
    let w := requests_post {| post_url := url; post_data := data;
                              uploadedfile := (filename, file_data file, content_type file) |} w in
    if request_failed (reply c) then
      let attempt := retries task + 1 in
      match retry_delay (DEBUG c) (retries task) with
      | None => (Raised IndexError, w)
      | Some delay =>
          match Task_retry task delay (Some (MAX_TRIES - 1)) w with
          | (MaxRetriesExceededError, w) =>
              let w := logger (Log_giving_up (id attachment) attempt MAX_TRIES) w in
              (Returned, set_cache (cache_delete (Py.str (id attachment))) w)
          | (Retry s, w) =>
              (Raised_Retry s, logger (Log_retry_in (id attachment) attempt MAX_TRIES delay) w)
          end
      end
    else (Returned, logger (Log_submitted (id attachment)) w).

(** The worker running one job: the first execution under [c]; every
    [Retry] is followed by the execution of the message it sent, under the
    next conditions of [later].  The result counts the executions made and
    gives the result of the last one. *)
Fixpoint run_job `{SecureSerializer} `{Collaborators}
    (c : Conditions) (later : list Conditions) (task : TaskRequest)
    (attachment : Attachment) (w : World) : nat * TaskResult * World :=
  let '(r, w') := submit_attachment c task attachment w in
  match r, later with
  | Raised_Retry s, c' :: later' =>
      let '(n, r', w'') :=
        run_job c' later' {| retries := sig_retries s |} attachment w' in
      (S n, r', w'')
  | _, _ => (1%nat, r, w')
  end.

(** ** Request handlers *)

Record Request := {
  form : gmap string string;
  files : gmap string (list byte);
  args : list (string * string);
  session_user : option User
}.

(** [request.args.getlist(key)] *)
Definition getlist (key : string) (a : list (string * string)) : list string :=
  snd <$> List.filter (fun kv => String.eqb (fst kv) key) a.

Inductive Response :=
  | jsonify_success (success : bool)
  | jsonify_check (finished pending : list Z) (containers : list (Z * string)).

Inductive Result (A : Type) :=
  | Return (a : A)
  | Raise (e : Exception).
Arguments Return {A} a.
Arguments Raise {A} e.

(** [d[k] = v] on a dict kept in insertion order. *)
Fixpoint dict_set {V} (k : Z) (v : V) (d : list (Z * V)) : list (Z * V) :=
  match d with
  | [] => [(k, v)]
  | (k', v') :: d' => if k' =? k then (k, v) :: d' else (k', v') :: dict_set k v d'
  end.

(** [RHConversionFinished._process] *)
Definition RHConversionFinished_process `{SecureSerializer} `{Collaborators}
    (request : Request) (w : World) : Result Response * World :=
  match form request !! "directory" with
  | None => (Raise (BadRequestKeyError "directory"), w)
  | Some token =>
  match loads token "pdf-conversion" with
  | None => (Return (jsonify_success false), logger (Log_invalid_payload token) w)
  | Some payload =>
  let attachment := Attachment_get (session w) (attachment_id payload) in
  let gone := (Return (jsonify_success true), logger (Log_attachment_deleted attachment) w) in
  match attachment with
  | None => gone
  | Some a =>
  if is_deleted a || folder_is_deleted (folder a) then gone else
  match form request !! "status" with
  | None => (Raise (BadRequestKeyError "status"), w)
  | Some status =>
  if negb (String.eqb status "1")
  then (Return (jsonify_success false), logger (Log_invalid_status status (id a)) w) else
  let '(name, ext) := Py.splitext (filename (file a)) in
  let title := get_pdf_title a in
  match files request !! "content" with
  | None => (Raise (BadRequestKeyError "content"), w)
  | Some data =>
  let pdf_file := {| file_user := file_user (file a); filename := name +:+ ".pdf";
                     content_type := "application/pdf"; file_data := data |} in
  let pdf_attachment := fun i =>
    {| id := i; folder := folder a; user := user a; title := title;
       description := description a; type := AttachmentType_file;
       protection_mode := protection_mode a; acl := acl a;
       is_deleted := false; file := pdf_file |} in
  let '(pdf_attachment, d) := session_add_flush pdf_attachment (session w) in
  let w := set_session d w in
  let w := set_cache (cache_set (Py.str (id a)) "finished" (Some 900)) w in
  let w := logger (Log_added_pdf (id pdf_attachment) (id a)) w in
  let w := signal_send pdf_attachment w in
  (Return (jsonify_success true), w)
  end end end end end.

(** The dict comprehension of [RHConversionCheck._process]. *)
Fixpoint check_results (c : gmap string CacheEntry) (ids : list string)
    (results : list (Z * option string)) : Result (list (Z * option string)) :=
  match ids with
  | [] => Return results
  | id_ :: ids' =>
      match Py.int id_ with
      | None => Raise ValueError
      | Some k => check_results c ids' (dict_set k (cache_get c id_) results)
      end
  end.

Definition with_status (s : string) (results : list (Z * option string)) : list Z :=
  fst <$> List.filter (fun kv => bool_decide (snd kv = Some s)) results.

(** [RHConversionCheck._process] *)
Definition RHConversionCheck_process `{Collaborators}
    (request : Request) (w : World) : Result Response :=
  let ids := getlist "a" (args request) in
  match check_results (cache w) ids [] with
  | Raise e => Raise e
  | Return results =>
      let finished := with_status "finished" results in
      let pending := with_status "pending" results in
      let containers :=
        if bool_decide (finished = []) then []
        else
          foldl (fun containers attachment =>
                   if negb (can_view (folder attachment) (session_user request))
                   then containers
                   else dict_set (id attachment)
                          (render_attachments_folders (folder_object (folder attachment)))
                          containers)
                [] (List.filter (fun a => bool_decide (id a ∈ finished))
                                (attachments (session w))) in
      Return (jsonify_check finished pending containers)
  end.

(** ** Correlation token codec *)

Module TokenCodec.

Section Codec.

(** The keyed hash: signing key, namespace and signed text to a digest. *)
Variable mac : string -> string -> string -> N.
Variable key : string.

Definition signature (salt body : string) : string :=
  Py.str (Z.of_N (mac key salt body)).

(** Modelled from the spec: the correlation token codec (Indico's
    [secure_serializer], which is not among the sources).  A token is the
    canonical serialization of the payload followed by a keyed hash of it
    under the signing key and the namespace. *)
Definition encode (p : Payload) (salt : string) : string :=
  let body := Py.str (attachment_id p) in
  body +:+ "." +:+ signature salt body.

(** Modelled from the spec: decoding of a correlation token (Indico's
    [secure_serializer], which is not among the sources).  It fails, with
    [None] for [InvalidToken], on a token without signature part, on a
    signature that is not the one of the text under this key and
    namespace, and on a text that is no payload. *)
Definition decode (token salt : string) : option Payload :=
  match Py.rsplit_char "." token with
  | None => None
  | Some (body, sig) =>
      if String.eqb sig (signature salt body)
      then (fun n => {| attachment_id := n |}) <$> Py.int body
      else None
  end.

End Codec.

Definition serializer (mac : string -> string -> string -> N) (key : string)
  : SecureSerializer :=
  {| dumps := encode mac key; loads := decode mac key |}.

End TokenCodec.

(** ** Category export for the CERN search

    [indico_livesync_cern/controllers.py]: the request handler
    [RHCategoriesJSON]. *)

Module LiveSync.

(** [request.authorization]: the credentials of the request, when it
    carries any; a field that the scheme does not give is [None]. *)
Record Authorization := {
  username : option string;
  password : option string
}.

(** The plugin settings read by [_checkProtection]. *)
Record Settings := {
  settings_username : option string;
  settings_password : option string
}.


(** The response carried by the [Unauthorized] that is raised. *)
Record UnauthorizedResponse := {
  body : string;
  status : Z;
  www_authenticate : string
}.

(** The double quote character, as a string. *)
Definition dquote : string := String (ascii_of_nat 34) EmptyString.

(** Truth value of an optional string: [None] and [''] are false. *)
Definition truthy (s : option string) : bool :=
  match s with
  | Some (String _ _) => true
  | _ => false
  end.

(** [RHCategoriesJSON._checkProtection]; [Raise] stands for the
    [Unauthorized] exception, [Return tt] for passing the check. *)
Definition RHCategoriesJSON_checkProtection (settings : Settings)
    (auth : option Authorization) : UnauthorizedResponse + unit :=
  let username := settings_username settings in
  let password := settings_password settings in
  let refused :=
    match auth with
    | None => true
    | Some auth =>
        negb (truthy (LiveSync.password auth))
        || negb (bool_decide (LiveSync.username auth = username))
        || negb (bool_decide (LiveSync.password auth = password))
    end in
  if refused
  then inl {| body := "Authorization required"; status := 401;
              www_authenticate :=
                "Basic realm=" +:+ dquote +:+ "Indico - CERN Search" +:+ dquote |}
  else inr tt.


End LiveSync.

(** ** A concrete installation, for examples *)

Module Example.

(** A toy keyed checksum standing for the keyed hash. *)
Fixpoint checksum (h : N) (s : string) : N :=
  match s with
  | EmptyString => h
  | String c s' => checksum ((h * 31 + N_of_ascii c) mod 4294967296)%N s'
  end.

Definition mac (key salt body : string) : N :=
  checksum (checksum (checksum 7 key) salt) body.

Definition serializer : SecureSerializer := TokenCodec.serializer mac "secret".

Definition collaborators : Collaborators :=
  {| url_for_plugin := fun endpoint => "https://indico.example/" +:+ endpoint;
     secure_filename := fun name fallback => if String.eqb name "" then fallback else name;
     get_pdf_title := fun a => title a +:+ " (PDF)";
     can_view := fun f u => match u with Some _ => true | None => false end;
     render_attachments_folders := fun obj => "<div>" +:+ Py.str obj +:+ "</div>" |}.

Definition materials : AttachmentFolder :=
  {| folder_id := 3; folder_is_deleted := false; folder_object := 11 |}.

Definition trash : AttachmentFolder :=
  {| folder_id := 4; folder_is_deleted := true; folder_object := 11 |}.

Definition slides (i : Z) (f : AttachmentFolder) : Attachment :=
  {| id := i; folder := f; user := {| user_id := 1 |}; title := "Slides";
     description := "Talk slides"; type := AttachmentType_file;
     protection_mode := ProtectionMode_inheriting; acl := [];
     is_deleted := false;
     file := {| file_user := {| user_id := 1 |}; filename := "slides.pptx";
                content_type := "application/vnd.ms-powerpoint";
                file_data := [x50; x4b] |} |}.

Definition world (c : gmap string CacheEntry) (rows : list Attachment) : World :=
  {| cache := c; session := {| attachments := rows; next_id := 100 |};
     broker := []; posted := []; log := []; attachment_created := [] |}.

Definition pending_42 : gmap string CacheEntry :=
  {[ "42" := {| value := "pending"; timeout := Some 900 |} ]}.

Definition failing : Conditions :=
  {| maintenance := false; server_url := "https://convert.example/";
     DEBUG := false; reply := HttpResponse 503 "busy" |}.

Definition paused : Conditions :=
  {| maintenance := true; server_url := "https://convert.example/";
     DEBUG := false; reply := HttpResponse 200 "ok" |}.

Definition callback (token status : string) : Request :=
  {| form := {[ "directory" := token; "status" := status ]};
     files := {[ "content" := [x25; x50; x44; x46] ]};
     args := []; session_user := None |}.

Definition cache_123 : gmap string CacheEntry :=
  {[ "1" := {| value := "finished"; timeout := Some 900 |};
     "2" := {| value := "pending"; timeout := None |} ]}.

Definition poll (ids : list string) : Request :=
  {| form := ∅; files := ∅; args := (fun i => ("a", i)) <$> ids;
     session_user := Some {| user_id := 1 |} |}.

Definition accepted : Conditions :=
  {| maintenance := false; server_url := "https://convert.example/";
     DEBUG := false; reply := HttpResponse 200 "ok" |}.

Definition search_settings : LiveSync.Settings :=
  {| LiveSync.settings_username := Some "cernsearch";
     LiveSync.settings_password := Some "s3cret" |}.

Definition unset_settings : LiveSync.Settings :=
  {| LiveSync.settings_username := Some "cernsearch";
     LiveSync.settings_password := Some EmptyString |}.


End Example.

(** ** Vocabulary of the statements *)

(** The characters [str] produces for an [int]. *)
Definition is_literal_char (c : ascii) : bool :=
  match c with
  | "0" | "1" | "2" | "3" | "4" | "5" | "6" | "7" | "8" | "9" | "-" => true
  | _ => false
  end%char.

Fixpoint literal (s : string) : bool :=
  match s with
  | EmptyString => true
  | String c s' => is_literal_char c && literal s'
  end.

(** The conditions of an execution whose submission fails: no maintenance
    pause, and a transport error, an error status or an answer without
    [ok]. *)
Definition submission_fails (c : Conditions) : Prop :=
  maintenance c = false /\ request_failed (reply c) = true.

(** A callback that names an existing job, deleted neither itself nor
    through its folder. *)
Definition names_live_job `{SecureSerializer} (request : Request) (w : World) (a : Attachment) : Prop :=
  exists token payload,
    form request !! "directory" = Some token /\
    loads token "pdf-conversion" = Some payload /\
    Attachment_get (session w) (attachment_id payload) = Some a /\
    is_deleted a = false /\ folder_is_deleted (folder a) = false.

(** The conditions of an execution whose submission is accepted. *)
Definition submission_succeeds (c : Conditions) : Prop :=
  maintenance c = false /\ request_failed (reply c) = false.

(** The conditions of an execution that ends in a retry of either kind
    or, late enough, in giving up. *)
Definition pause_or_failure (c : Conditions) : Prop :=
  maintenance c = true \/ submission_fails c.

(** A job run under a sequence of conditions, one per execution. *)
Definition run `{SecureSerializer} `{Collaborators}
    (cs : list Conditions) (task : TaskRequest) (attachment : Attachment) (w : World)
  : option (nat * TaskResult * World) :=
  match cs with
  | [] => None
  | c :: later => Some (run_job c later task attachment w)
  end.

(** The stored attachments have distinct ids, all below the next id of
    the sequence. *)
Definition db_wf (d : Database) : Prop :=
  NoDup (id <$> attachments d) /\
  forall a, a ∈ attachments d -> id a < next_id d.


(** The last of the request parameters that reads as the integer [n]. *)
Definition last_spelling (n : Z) (ids : list string) : option string :=
  last (List.filter (fun s => bool_decide (Py.int s = Some n)) ids).

(** The message of the retry after a failure at counter [i]. *)
Definition retry_message (debug : bool) (i : Z) : Signature :=
  {| sig_retries := i + 1; sig_countdown := default 0 (retry_delay debug i) |}.

(** * Properties *)

(** ** Decimal literals *)

Module PyFacts.

Lemma literal_char_inv c :
  is_literal_char c = true ->
  Py.is_space c = false /\ Ascii.eqb c "." = false /\ Ascii.eqb c "_" = false.
Proof.
  destruct c as [[] [] [] [] [] [] [] []]; simpl; intros Hc;
    try discriminate Hc; repeat split; reflexivity.
Qed.

Lemma literal_uint d : literal (NilEmpty.string_of_uint d) = true.
Proof. induction d; simpl; auto. Qed.

Lemma literal_str n : literal (Py.str n) = true.
Proof.
  unfold Py.str. destruct (Z.to_int n) as [d|d]; simpl.
  - destruct d; try reflexivity; apply (literal_uint (_ _)).
  - destruct d; try reflexivity; apply (literal_uint (_ _)).
Qed.

Lemma lstrip_literal s : literal s = true -> Py.lstrip s = s.
Proof.
  destruct s as [|c s]; simpl; [done|].
  intros [Hc _]%andb_prop. by destruct (literal_char_inv c Hc) as (-> & _).
Qed.

Lemma rstrip_literal s : literal s = true -> Py.rstrip s = s.
Proof.
  induction s as [|c s IH]; simpl; [done|].
  intros [Hc Hs]%andb_prop. rewrite IH by done.
  destruct (literal_char_inv c Hc) as (-> & _). by destruct s.
Qed.

Lemma strip_literal s : literal s = true -> Py.strip s = s.
Proof.
  intros Hs. unfold Py.strip. rewrite lstrip_literal by done.
  by apply rstrip_literal.
Qed.

Lemma rsplit_dot_literal s : literal s = true -> Py.rsplit_char "." s = None.
Proof.
  induction s as [|c s IH]; simpl; [done|].
  intros [Hc Hs]%andb_prop. rewrite IH by done.
  by destruct (literal_char_inv c Hc) as (_ & -> & _).
Qed.

Lemma scan_digits_uint d :
  Py.scan_digits true (NilEmpty.string_of_uint d) = Some d.
Proof. induction d; simpl; rewrite ?IHd; reflexivity. Qed.

Lemma scan_digits_uint_first d :
  d <> Nil -> Py.scan_digits false (NilEmpty.string_of_uint d) = Some d.
Proof. destruct d; [done|..]; intros _; simpl; by rewrite scan_digits_uint. Qed.

Lemma int_string_of_int (i : Decimal.int) :
  (match i with Pos d | Neg d => d <> Nil end) ->
  Py.int (NilZero.string_of_int i) = Some (Z.of_int i).
Proof.
  intros Hd. unfold Py.int.
  assert (Hlit : literal (NilZero.string_of_int i) = true).
  { destruct i as [d|d]; simpl; destruct d; try done; apply (literal_uint (_ _)). }
  rewrite strip_literal by done.
  destruct i as [d|d]; simpl.
  - destruct d; [done|..]; simpl; by rewrite scan_digits_uint.
  - destruct d; [done|..]; simpl; by rewrite scan_digits_uint.
Qed.

(** [int(str(n)) == n] *)
Lemma int_str n : Py.int (Py.str n) = Some n.
Proof.
  unfold Py.str. rewrite int_string_of_int.
  - by rewrite DecimalZ.of_to.
  - destruct n as [|p|p]; simpl; [done|..];
      intros Hp; by apply (DecimalPos.Unsigned.to_uint_nonnil p).
Qed.

Lemma str_inj n m : Py.str n = Py.str m -> n = m.
Proof.
  intros Heq. apply (f_equal Py.int) in Heq. rewrite !int_str in Heq. congruence.
Qed.

Lemma rsplit_char_app c x y :
  Py.rsplit_char c y = None ->
  Py.rsplit_char c (x +:+ String c y) = Some (x, y).
Proof.
  intros Hy. induction x as [|a x IH]; simpl.
  - by rewrite Hy, Ascii.eqb_refl.
  - by rewrite IH.
Qed.

End PyFacts.

(** ** Backoff schedule *)

Lemma retry_delay_is_Some debug r : is_Some (retry_delay debug r).
Proof.
  unfold retry_delay. destruct debug; simpl; [by eexists|].
  destruct (Py.getitem DELAYS r); by eexists.
Qed.

Lemma retry_delay_saturates r : 9 <= r -> retry_delay false r = Some 7200.
Proof.
  intros Hr. unfold retry_delay, Py.getitem; simpl.
  replace (r <? Z.of_nat 9) with false by (symmetry; apply Z.ltb_ge; lia).
  replace (r <? 0) with false by (symmetry; apply Z.ltb_ge; lia).
  by rewrite andb_false_r.
Qed.

(** C1. In the non-debug mode the delay picked after a failed attempt
    with [a] earlier retries is entry [a] of the schedule
    30, 60, 120, 300, 600, 1800, 3600, 3600, 7200 when [0 <= a <= 8], and
    the last entry, 7200, when [a >= 9]; either way a delay is found, the
    [IndexError] never escapes. *)
Theorem retry_delay_schedule (a : Z) :
  (0 <= a <= 8 ->
   retry_delay false a = [30; 60; 120; 300; 600; 1800; 3600; 3600; 7200] !! Z.to_nat a /\
   is_Some (retry_delay false a)) /\
  (9 <= a -> retry_delay false a = Some 7200).
Proof.
  split.
  - intros Ha. split; [|apply retry_delay_is_Some].
    assert (Hcases : a = 0 \/ a = 1 \/ a = 2 \/ a = 3 \/ a = 4 \/ a = 5 \/
                     a = 6 \/ a = 7 \/ a = 8) by lia.
    repeat (destruct Hcases as [-> | Hcases]; [reflexivity|]).
    by subst a.
  - apply retry_delay_saturates.
Qed.

Lemma retry_delay_schedule_witness :
  retry_delay false 4 = Some 600 /\ retry_delay false 12 = Some 7200.
Proof.
  split.
  - apply (proj1 (retry_delay_schedule 4)). lia.
  - apply (proj2 (retry_delay_schedule 12)). lia.
Defined.

(** ** Correlation token *)

Lemma decode_encode mac key p salt :
  TokenCodec.decode mac key (TokenCodec.encode mac key p salt) salt = Some p.
Proof.
  unfold TokenCodec.decode, TokenCodec.encode.
  change ("." +:+ ?s) with (String "." s).
  rewrite PyFacts.rsplit_char_app
    by apply PyFacts.rsplit_dot_literal, PyFacts.literal_str.
  rewrite String.eqb_refl, PyFacts.int_str. by destruct p.
Qed.

Lemma decode_empty mac key salt : TokenCodec.decode mac key "" salt = None.
Proof. reflexivity. Qed.

(** A token does not decode under a namespace that the keyed hash tells
    apart from the one it was made under. *)
Lemma decode_other_namespace mac key p salt salt' :
  mac key salt (Py.str (attachment_id p)) <> mac key salt' (Py.str (attachment_id p)) ->
  TokenCodec.decode mac key (TokenCodec.encode mac key p salt) salt' = None.
Proof.
  intros Hne. unfold TokenCodec.decode, TokenCodec.encode.
  change ("." +:+ ?s) with (String "." s).
  rewrite PyFacts.rsplit_char_app
    by apply PyFacts.rsplit_dot_literal, PyFacts.literal_str.
  destruct (String.eqb_spec (TokenCodec.signature mac key salt (Py.str (attachment_id p)))
              (TokenCodec.signature mac key salt' (Py.str (attachment_id p)))) as [Heq|]; [|done].
  apply PyFacts.str_inj, N2Z.inj in Heq. done.
Qed.

(** C4. A token made by encoding a payload under the namespace
    ['pdf-conversion'] decodes, with the same signing key and namespace,
    to that payload; decoding such a token never fails. *)
Theorem token_round_trip (mac : string -> string -> string -> N) (key : string) (p : Payload) :
  @loads (TokenCodec.serializer mac key)
    (@dumps (TokenCodec.serializer mac key) p "pdf-conversion") "pdf-conversion" = Some p.
Proof. apply decode_encode. Qed.

(** ** The submitter *)

Section Submitter.

Context `{SecureSerializer} `{Collaborators}.

Lemma submit_paused c r attachment w :
  maintenance c = true ->
  let s := {| sig_retries := r + 1; sig_countdown := 900 |} in
  submit_attachment c {| retries := r |} attachment w = (Raised_Retry s, apply_async s w).
Proof. intros Hm. unfold submit_attachment. by rewrite Hm. Qed.

(** One failed submission: the request is posted, then either the retry
    is sent or, from the twentieth try on, the job is given up. *)
Lemma submit_failed c r attachment w :
  submission_fails c ->
  exists delay rq,
    retry_delay (DEBUG c) r = Some delay /\
    let w1 := requests_post rq w in
    let s := {| sig_retries := r + 1; sig_countdown := delay |} in
    submit_attachment c {| retries := r |} attachment w =
      if r + 1 >? 19
      then (Returned,
            set_cache (cache_delete (Py.str (id attachment)))
              (logger (Log_giving_up (id attachment) (r + 1) 20) w1))
      else (Raised_Retry s,
            logger (Log_retry_in (id attachment) (r + 1) 20 delay) (apply_async s w1)).
Proof.
  intros [Hm Hf]. destruct (retry_delay_is_Some (DEBUG c) r) as [delay Hd].
  unfold submit_attachment. rewrite Hm, Hf.
  destruct (Py.splitext _) as [name ext]. simpl.
  rewrite Hd. exists delay. eexists. split; [reflexivity|].
  unfold Task_retry. simpl. change (MAX_TRIES - 1) with 19.
  destruct (r + 1 >? 19); reflexivity.
Qed.

(** The retry sent after a failed submission that is not the last one
    carries the delay of the schedule. *)
Lemma submit_failed_countdown c r attachment w :
  submission_fails c -> r < 19 ->
  exists delay,
    retry_delay (DEBUG c) r = Some delay /\
    (submit_attachment c {| retries := r |} attachment w).1 =
      Raised_Retry {| sig_retries := r + 1; sig_countdown := delay |}.
Proof.
  intros Hc Hr. destruct (submit_failed c r attachment w Hc) as (delay & rq & Hd & ->).
  exists delay. split; [done|].
  by destruct (Z.gtb_spec (r + 1) 19); [lia|].
Qed.

(** The last execution of a failing job, in [run_job_failing]. *)
Local Ltac given_up :=
  eexists; exists []; split; [reflexivity|]; simpl;
  rewrite length_app, app_nil_r, last_snoc; simpl; repeat split; auto.

Lemma run_job_failing later : forall c r attachment w,
  Forall submission_fails (c :: later) ->
  0 <= r <= 19 ->
  19 - r <= Z.of_nat (length later) ->
  exists w' sigs,
    run_job c later {| retries := r |} attachment w = (Z.to_nat (20 - r), Returned, w') /\
    length (posted w') = (length (posted w) + Z.to_nat (20 - r))%nat /\
    broker w' = (broker w ++ sigs)%list /\
    sig_retries <$> sigs = seqZ (r + 1) (19 - r) /\
    last (log w') = Some (Log_giving_up (id attachment) 20 20) /\
    session w' = session w /\
    cache w' = delete (Py.str (id attachment)) (cache w).
Proof.
  induction later as [|c' later IH]; intros c r attachment w Hall Hr Hlen.
  - assert (r = 19) as -> by (simpl in Hlen; lia).
    apply Forall_cons in Hall as [Hc _].
    destruct (submit_failed c 19 attachment w Hc) as (delay & rq & _ & Hs).
    simpl in Hs. simpl. rewrite Hs. by given_up.
  - apply Forall_cons in Hall as [Hc Hall].
    destruct (submit_failed c r attachment w Hc) as (delay & rq & _ & Hs).
    simpl in Hs. simpl. rewrite Hs. clear Hs.
    destruct (Z.gtb_spec (r + 1) 19) as [Hlast | Hmore].
    + assert (r = 19) as -> by lia. by given_up.
    + simpl. set (w1 := logger _ _).
      destruct (IH c' (r + 1) attachment w1 Hall) as (w' & sigs & Hrun & Hp & Hb & Hn & Hl & Hd & Hk);
        [lia | simpl in Hlen; lia |].
      rewrite Hrun. exists w'.
      exists ({| sig_retries := r + 1; sig_countdown := delay |} :: sigs).
      split; [do 2 f_equal; lia|].
      split; [rewrite Hp; subst w1; simpl; rewrite length_app; simpl; lia|].
      split; [rewrite Hb; subst w1; simpl; by rewrite <- app_assoc|].
      split.
      { rewrite fmap_cons, Hn. simpl. rewrite (seqZ_cons (r + 1)) by lia.
        do 2 f_equal; lia. }
      done.
Qed.

(** C2. A job all of whose submissions fail is executed exactly twenty
    times, the first try and the nineteen retries numbered 1 to 19; the
    twentieth execution sends no further retry and returns after logging
    that it gives up, and the job's entry is deleted from the status
    cache. *)
Theorem failing_job_gives_up c later attachment w :
  Forall submission_fails (c :: later) ->
  (19 <= length later)%nat ->
  exists w' sigs,
    run_job c later {| retries := 0 |} attachment w = (20%nat, Returned, w') /\
    length (posted w') = (length (posted w) + 20)%nat /\
    broker w' = (broker w ++ sigs)%list /\
    sig_retries <$> sigs = seqZ 1 19 /\
    last (log w') = Some (Log_giving_up (id attachment) 20 MAX_TRIES) /\
    cache w' = cache_delete (Py.str (id attachment)) (cache w) /\
    cache_get (cache w') (Py.str (id attachment)) = None.
Proof.
  intros Hall Hlen.
  destruct (run_job_failing later c 0 attachment w Hall) as
    (w' & sigs & Hrun & Hp & Hb & Hn & Hl & _ & Hk); [lia | lia |].
  exists w', sigs. repeat split; try done.
  unfold cache_get. by rewrite Hk, lookup_delete_eq.
Qed.

Lemma run_job_paused later : forall c r attachment w,
  Forall (fun c => maintenance c = true) (c :: later) ->
  exists w',
    run_job c later {| retries := r |} attachment w =
      (S (length later),
       Raised_Retry {| sig_retries := r + Z.of_nat (S (length later)); sig_countdown := 900 |},
       w') /\
    cache w' = cache w /\ posted w' = posted w /\ log w' = log w /\
    session w' = session w /\
    length (broker w') = (length (broker w) + S (length later))%nat.
Proof.
  induction later as [|c' later IH]; intros c r attachment w [Hc Hall]%Forall_cons.
  - simpl. rewrite submit_paused by done. eexists. split; [done|].
    simpl. rewrite length_app. by repeat split.
  - cbn [run_job]. rewrite submit_paused by done.
    destruct (IH c' (r + 1) attachment
                (apply_async {| sig_retries := r + 1; sig_countdown := 900 |} w) Hall)
      as (w' & Hrun & Hk & Hp & Hl & Hd & Hb).
    cbn [sig_retries]. rewrite Hrun. exists w'. split.
    { replace (r + 1 + Z.of_nat (S (length later)))
        with (r + Z.of_nat (S (length (c' :: later)))) by (cbn [length]; lia).
      reflexivity. }
    repeat split; try done.
    rewrite Hb. simpl. rewrite length_app. simpl. lia.
Qed.

(** C3, as amended. In maintenance mode an execution sends a retry with
    a countdown of 900 seconds and does nothing else: no request is
    posted, the status cache is untouched, and it never gives up, whatever
    the retry counter.  The retry it sends carries the counter advanced by
    one, so a run of [n] pauses starting at counter [r] ends with the
    counter at [r + n]. *)
Theorem maintenance_pause c later r attachment w :
  Forall (fun c => maintenance c = true) (c :: later) ->
  let n := S (length later) in
  exists w',
    run_job c later {| retries := r |} attachment w =
      (n, Raised_Retry {| sig_retries := r + Z.of_nat n; sig_countdown := 900 |}, w') /\
    cache w' = cache w /\ posted w' = posted w /\ log w' = log w /\
    length (broker w') = (length (broker w) + n)%nat.
Proof.
  intros Hall n.
  destruct (run_job_paused later c r attachment w Hall) as (w' & Hrun & Hk & Hp & Hl & _ & Hb).
  by exists w'.
Qed.

End Submitter.

Lemma failing_job_gives_up_witness :
  exists w' sigs,
    @run_job Example.serializer Example.collaborators
      Example.failing (replicate 19 Example.failing) {| retries := 0 |}
      (Example.slides 42 Example.materials) (Example.world Example.pending_42 []) =
      (20%nat, Returned, w') /\
    length (posted w') = 20%nat /\
    broker w' = sigs /\
    sig_retries <$> sigs = seqZ 1 19 /\
    last (log w') = Some (Log_giving_up 42 20 20) /\
    cache w' = cache_delete "42" Example.pending_42 /\
    cache_get (cache w') "42" = None.
Proof.
  apply (@failing_job_gives_up Example.serializer Example.collaborators
           Example.failing (replicate 19 Example.failing)
           (Example.slides 42 Example.materials) (Example.world Example.pending_42 [])).
  - apply Forall_cons. split; [by split|].
    apply Forall_replicate. by split.
  - rewrite length_replicate. lia.
Defined.

Lemma maintenance_pause_witness :
  exists w',
    @run_job Example.serializer Example.collaborators
      Example.paused [Example.paused; Example.paused] {| retries := 18 |}
      (Example.slides 42 Example.materials) (Example.world Example.pending_42 []) =
      (3%nat, Raised_Retry {| sig_retries := 21; sig_countdown := 900 |}, w') /\
    cache w' = Example.pending_42 /\ posted w' = [] /\ log w' = [] /\
    length (broker w') = 3%nat.
Proof.
  apply (@maintenance_pause Example.serializer Example.collaborators
           Example.paused [Example.paused; Example.paused] 18
           (Example.slides 42 Example.materials) (Example.world Example.pending_42 [])).
  repeat (apply Forall_cons; split; [reflexivity|]). apply Forall_nil_2.
Defined.

(** C3 as stated does not hold: a maintenance pause advances the retry
    counter.  After one pause the first failed submission counts as try 2
    and waits 60 seconds, where without the pause it counts as try 1 and
    waits 30; and after nineteen pauses the first failed submission is
    already the one that gives up. *)
Lemma pause_advances_retry_counter :
  let run := @run_job Example.serializer Example.collaborators in
  let job := Example.slides 42 Example.materials in
  let w := Example.world Example.pending_42 [] in
  (exists s w', @submit_attachment Example.serializer Example.collaborators
                  Example.paused {| retries := 0 |} job w = (Raised_Retry s, w') /\
                sig_retries s <> 0) /\
  (run Example.failing [] {| retries := 0 |} job w).1 =
    (1%nat, Raised_Retry {| sig_retries := 1; sig_countdown := 30 |}) /\
  (run Example.paused [Example.failing] {| retries := 0 |} job w).1 =
    (2%nat, Raised_Retry {| sig_retries := 2; sig_countdown := 60 |}) /\
  (let '(n, r, w') :=
     run Example.paused (replicate 18 Example.paused ++ [Example.failing])%list
       {| retries := 0 |} job w in
   n = 20%nat /\ r = Returned /\ length (posted w') = 1%nat /\
   cache_get (cache w') "42" = None).
Proof.
  split; [|by vm_compute].
  eexists _, _. split; [reflexivity|]. simpl. lia.
Qed.

(** ** The callback handler *)

Lemma find_app_Some {A} (f : A -> bool) (l l' : list A) x :
  List.find f l = Some x -> List.find f (l ++ l') = Some x.
Proof.
  induction l as [|y l IH]; simpl; [done|]. by destruct (f y).
Qed.

Lemma Attachment_get_added d i a x n :
  Attachment_get d i = Some a ->
  Attachment_get {| attachments := attachments d ++ [x]; next_id := n |} i = Some a.
Proof. apply find_app_Some. Qed.

Section Callback.

Context `{SecureSerializer} `{Collaborators}.

(** What the handler does with a callback reporting success. *)
Lemma callback_applied request w a data :
  names_live_job request w a ->
  form request !! "status" = Some "1" ->
  files request !! "content" = Some data ->
  exists w' pdf,
    RHConversionFinished_process request w = (Return (jsonify_success true), w') /\
    session w' = {| attachments := attachments (session w) ++ [pdf];
                    next_id := next_id (session w) + 1 |} /\
    id pdf = next_id (session w) /\
    folder pdf = folder a /\
    is_deleted pdf = false /\
    filename (file pdf) = (Py.splitext (filename (file a))).1 +:+ ".pdf" /\
    content_type (file pdf) = "application/pdf" /\
    file_data (file pdf) = data /\
    cache w' = cache_set (Py.str (id a)) "finished" (Some 900) (cache w) /\
    attachment_created w' = (attachment_created w ++ [pdf])%list /\
    names_live_job request w' a.
Proof.
  intros (token & payload & Htok & Hload & Hget & Hdel & Hfdel) Hst Hdata.
  unfold RHConversionFinished_process.
  rewrite Htok, Hload, Hget, Hdel, Hfdel, Hst, Hdata. simpl.
  destruct (Py.splitext _) as [name ext]. simpl.
  eexists _, _. split; [reflexivity|]. simpl. repeat split.
  exists token, payload. simpl. repeat split; try done.
  by apply Attachment_get_added.
Qed.

(** C5. A callback whose token does not decode is answered with
    [{"success": false}], and neither the status cache nor the stored
    attachments change; no attachment is announced. *)
Theorem invalid_token_rejected request w token :
  form request !! "directory" = Some token ->
  loads token "pdf-conversion" = None ->
  let '(response, w') := RHConversionFinished_process request w in
  response = Return (jsonify_success false) /\
  cache w' = cache w /\ session w' = session w /\
  attachment_created w' = attachment_created w.
Proof.
  intros Htok Hload. unfold RHConversionFinished_process.
  by rewrite Htok, Hload.
Qed.

(** C6. A callback with a valid token whose job is no longer stored, or
    is deleted itself or through its folder, is answered with
    [{"success": true}] and nothing is applied: the status cache and the
    stored attachments are unchanged and no attachment is announced. *)
Theorem gone_job_acknowledged request w token payload :
  form request !! "directory" = Some token ->
  loads token "pdf-conversion" = Some payload ->
  (Attachment_get (session w) (attachment_id payload) = None \/
   exists a, Attachment_get (session w) (attachment_id payload) = Some a /\
             (is_deleted a = true \/ folder_is_deleted (folder a) = true)) ->
  let '(response, w') := RHConversionFinished_process request w in
  response = Return (jsonify_success true) /\
  cache w' = cache w /\ session w' = session w /\
  attachment_created w' = attachment_created w.
Proof.
  intros Htok Hload Hgone. unfold RHConversionFinished_process.
  rewrite Htok, Hload.
  destruct Hgone as [-> | (a & -> & [Hd | Hd])]; [done | |].
  - by rewrite Hd.
  - rewrite Hd, orb_true_r. done.
Qed.

(** C7. A callback with a valid token for a live job whose status field
    is not ["1"] is answered with [{"success": false}] and changes
    nothing: the status cache, and so the job's entry, is what it was, and
    no attachment is stored or announced. *)
Theorem failed_status_changes_nothing request w a status :
  names_live_job request w a ->
  form request !! "status" = Some status ->
  status <> "1" ->
  let '(response, w') := RHConversionFinished_process request w in
  response = Return (jsonify_success false) /\
  cache w' = cache w /\
  cache w' !! Py.str (id a) = cache w !! Py.str (id a) /\
  session w' = session w /\
  attachment_created w' = attachment_created w.
Proof.
  intros (token & payload & Htok & Hload & Hget & Hdel & Hfdel) Hst Hne.
  unfold RHConversionFinished_process.
  rewrite Htok, Hload, Hget, Hdel, Hfdel, Hst. simpl.
  apply String.eqb_neq in Hne. by rewrite Hne.
Qed.

(** C8. Handling a success callback is not idempotent. Delivering the
    same callback (valid token, live job, status ["1"], converted content
    attached) twice answers [{"success": true}] both times, stores two
    derived attachments with distinct ids and the same content, announces
    both, and leaves the job's cache entry at [finished] after each
    delivery. *)
Theorem success_callback_not_idempotent request w a data :
  names_live_job request w a ->
  form request !! "status" = Some "1" ->
  files request !! "content" = Some data ->
  let '(response1, w1) := RHConversionFinished_process request w in
  let '(response2, w2) := RHConversionFinished_process request w1 in
  response1 = Return (jsonify_success true) /\
  response2 = Return (jsonify_success true) /\
  cache_get (cache w1) (Py.str (id a)) = Some "finished" /\
  cache_get (cache w2) (Py.str (id a)) = Some "finished" /\
  exists pdf1 pdf2,
    attachments (session w1) = (attachments (session w) ++ [pdf1])%list /\
    attachments (session w2) = (attachments (session w) ++ [pdf1; pdf2])%list /\
    attachment_created w2 = (attachment_created w ++ [pdf1; pdf2])%list /\
    id pdf1 = next_id (session w) /\ id pdf2 = next_id (session w) + 1 /\
    id pdf1 <> id pdf2 /\
    folder pdf1 = folder a /\ folder pdf2 = folder a /\
    file_data (file pdf1) = data /\ file_data (file pdf2) = data /\
    content_type (file pdf1) = "application/pdf" /\
    content_type (file pdf2) = "application/pdf".
Proof.
  intros Hlive Hst Hdata.
  destruct (callback_applied request w a data Hlive Hst Hdata) as
    (w1 & pdf1 & -> & Hs1 & Hid1 & Hf1 & _ & _ & Hct1 & Hd1 & Hc1 & Ha1 & Hlive1).
  destruct (callback_applied request w1 a data Hlive1 Hst Hdata) as
    (w2 & pdf2 & -> & Hs2 & Hid2 & Hf2 & _ & _ & Hct2 & Hd2 & Hc2 & Ha2 & _).
  repeat split.
  - rewrite Hc1. unfold cache_get, cache_set. by rewrite lookup_insert_eq.
  - rewrite Hc2. unfold cache_get, cache_set. by rewrite lookup_insert_eq.
  - exists pdf1, pdf2. rewrite Hs2, Hs1, Ha2, Ha1, Hid2, Hid1, Hs1. simpl.
    rewrite <- !app_assoc. simpl. repeat split; try done. lia.
Qed.

End Callback.

(** ** The status query *)

Lemma getlist_a (ids : list string) :
  getlist "a" ((fun i => ("a", i)) <$> ids) = ids.
Proof.
  unfold getlist. induction ids as [|i ids IH]; [done|].
  rewrite fmap_cons. cbn [List.filter fst]. rewrite String.eqb_refl, fmap_cons.
  by f_equal.
Qed.

(** Setting a key to the value a function gives it, in a dict whose
    values are all given by that function, adds at most that item. *)
Lemma dict_set_elem {V} (f : Z -> V) (d : list (Z * V)) (k : Z) :
  (forall k' v', (k', v') ∈ d -> v' = f k') ->
  forall x, x ∈ dict_set k (f k) d <-> x ∈ d \/ x = (k, f k).
Proof.
  induction d as [|[k1 v1] d IH]; intros Hd x; cbn [dict_set].
  - rewrite list_elem_of_singleton, elem_of_nil. tauto.
  - destruct (Z.eqb_spec k1 k) as [-> | Hne].
    + assert (v1 = f k) as -> by (apply Hd; left).
      rewrite !elem_of_cons. tauto.
    + rewrite !elem_of_cons, IH; [tauto|].
      intros k' v' Hin. apply Hd. by right.
Qed.

Lemma dict_set_keys {V} (d : list (Z * V)) (k : Z) (v : V) :
  (dict_set k v d).*1 = if bool_decide (k ∈ d.*1) then d.*1 else (d.*1 ++ [k])%list.
Proof.
  induction d as [|[k1 v1] d IH]; [done|]. cbn [dict_set].
  destruct (Z.eqb_spec k1 k) as [-> | Hne]; rewrite !fmap_cons; cbn [fst].
  - rewrite bool_decide_eq_true_2; [done | left].
  - rewrite IH. destruct (bool_decide_reflect (k ∈ d.*1)) as [Hin | Hout].
    + rewrite bool_decide_eq_true_2; [done | by right].
    + rewrite bool_decide_eq_false_2; [done|].
      intros [Heq | Hin]%elem_of_cons; congruence.
Qed.

Lemma dict_set_NoDup {V} (d : list (Z * V)) (k : Z) (v : V) :
  NoDup d.*1 -> NoDup (dict_set k v d).*1.
Proof.
  intros Hd. rewrite dict_set_keys.
  destruct (bool_decide_reflect (k ∈ d.*1)); [done|].
  apply NoDup_app. repeat split; [done | | apply NoDup_singleton].
  intros x Hx ->%list_elem_of_singleton. done.
Qed.

(** The dict built from requested ids in decimal form: the keys are the
    ids, each once, each with the value cached under its decimal form. *)
Lemma check_results_decimal (c : gmap string CacheEntry) (ns : list Z) :
  forall acc,
    (forall k v, (k, v) ∈ acc -> v = cache_get c (Py.str k)) ->
    NoDup acc.*1 ->
    exists results,
      check_results c (Py.str <$> ns) acc = Return results /\
      NoDup results.*1 /\
      forall k v, (k, v) ∈ results <->
                  (k, v) ∈ acc \/ (k ∈ ns /\ v = cache_get c (Py.str k)).
Proof.
  induction ns as [|n ns IH]; intros acc Hacc Hnd.
  - exists acc. split; [done|]. split; [done|].
    intros k v. rewrite elem_of_nil. tauto.
  - rewrite fmap_cons. cbn [check_results]. rewrite PyFacts.int_str.
    pose proof (dict_set_elem (fun k => cache_get c (Py.str k)) acc n Hacc) as Hset.
    simpl in Hset.
    destruct (IH (dict_set n (cache_get c (Py.str n)) acc)) as (results & -> & Hnd' & Hres).
    + intros k v [Hin | [= -> ->]]%Hset; [by apply Hacc | done].
    + by apply dict_set_NoDup.
    + exists results. split; [done|]. split; [done|]. intros k v.
      rewrite Hres, Hset, elem_of_cons. split.
      * intros [[Hin | [= -> ->]] | [Hin ->]]; auto.
      * intros [Hin | [[-> | Hin] ->]]; auto.
Qed.

Lemma elem_of_with_status s results n :
  n ∈ with_status s results <-> (n, Some s) ∈ results.
Proof.
  unfold with_status. rewrite list_elem_of_fmap. split.
  - intros ([k v] & -> & Hin). apply list_elem_of_In, filter_In in Hin as [Hin Hv].
    apply bool_decide_eq_true in Hv. simpl in *. subst v. by apply list_elem_of_In.
  - intros Hin. exists (n, Some s). split; [done|].
    apply list_elem_of_In, filter_In. split; [by apply list_elem_of_In|].
    by apply bool_decide_eq_true.
Qed.

Lemma with_status_NoDup s results : NoDup results.*1 -> NoDup (with_status s results).
Proof.
  unfold with_status. induction results as [|[k v] results IH]; simpl; [done|].
  intros [Hk Hnd]%NoDup_cons. destruct (bool_decide _); simpl; [|by apply IH].
  apply NoDup_cons. split; [|by apply IH].
  intros ([k' v'] & Hkk & Hin%list_elem_of_In%filter_In)%list_elem_of_fmap.
  simpl in Hkk. subst k'. apply Hk, list_elem_of_fmap.
  exists (k, v'). split; [done|]. apply list_elem_of_In, Hin.
Qed.

Section Check.

Context `{Collaborators}.

(** The answer to a poll for the ids [ns], sent in decimal form. *)
Lemma check_decimal request w (ns : list Z) :
  getlist "a" (args request) = Py.str <$> ns ->
  exists finished pending containers,
    RHConversionCheck_process request w =
      Return (jsonify_check finished pending containers) /\
    NoDup finished /\ NoDup pending /\
    (forall n, n ∈ finished <->
               n ∈ ns /\ cache_get (cache w) (Py.str n) = Some "finished") /\
    (forall n, n ∈ pending <->
               n ∈ ns /\ cache_get (cache w) (Py.str n) = Some "pending").
Proof.
  intros Hids. unfold RHConversionCheck_process. rewrite Hids.
  destruct (check_results_decimal (cache w) ns []) as (results & -> & Hnd & Hres);
    [by intros k v ?%elem_of_nil | apply NoDup_nil_2 |].
  eexists _, _, _. split; [reflexivity|].
  split; [by apply with_status_NoDup|]. split; [by apply with_status_NoDup|].
  split; intros n; rewrite elem_of_with_status, Hres, elem_of_nil;
    (split; [intros [[] | [? ?]] | intros [? ?]]); auto.
Qed.

End Check.

Lemma NoDup_only {A} (l : list A) (a : A) :
  NoDup l -> (forall x, x ∈ l <-> x = a) -> l = [a].
Proof.
  intros Hnd Hl. destruct l as [|x l].
  - assert (Ha : a ∈ @nil A) by (by apply Hl). by apply elem_of_nil in Ha.
  - assert (x = a) as -> by (apply Hl; left).
    destruct l as [|y l]; [done|].
    assert (y = a) as -> by (apply Hl; right; left).
    apply NoDup_cons in Hnd as [Hnd _]. destruct Hnd. left.
Qed.

Lemma no_elem_nil {A} (l : list A) : (forall x, x ∉ l) -> l = [].
Proof. destruct l as [|x l]; [done|]. intros Hl. destruct (Hl x). left. Qed.

Section Poll.

Context `{SecureSerializer} `{Collaborators}.

(** C9. For a poll whose ids [ns] arrive in decimal form, the answer
    lists under [finished] exactly the requested ids whose cache value is
    [finished] and under [pending] exactly those whose cache value is
    [pending], each once; an id without cache entry is in neither list.
    In particular, for the ids 1, 2, 3 with 1 finished, 2 pending and 3
    absent the answer has [finished = [1]] and [pending = [2]]. *)
Theorem status_query_classifies request w (ns : list Z) :
  getlist "a" (args request) = Py.str <$> ns ->
  exists finished pending containers,
    RHConversionCheck_process request w =
      Return (jsonify_check finished pending containers) /\
    NoDup finished /\ NoDup pending /\
    (forall n, n ∈ finished <->
               n ∈ ns /\ cache_get (cache w) (Py.str n) = Some "finished") /\
    (forall n, n ∈ pending <->
               n ∈ ns /\ cache_get (cache w) (Py.str n) = Some "pending") /\
    (forall n, cache_get (cache w) (Py.str n) = None ->
               (n ∉ finished) /\ (n ∉ pending)) /\
    (ns = [1; 2; 3] ->
     cache_get (cache w) "1" = Some "finished" ->
     cache_get (cache w) "2" = Some "pending" ->
     cache_get (cache w) "3" = None ->
     finished = [1] /\ pending = [2]).
Proof.
  intros Hids.
  destruct (check_decimal request w ns Hids) as
    (finished & pending & containers & Hrun & Hndf & Hndp & Hf & Hp).
  exists finished, pending, containers.
  do 5 (split; [done|]). split; [|intros -> H1 H2 H3; split].
  - intros n Hn. split.
    + intros [_ Hn']%Hf. congruence.
    + intros [_ Hn']%Hp. congruence.
  - apply NoDup_only; [done|]. intros n. rewrite Hf.
    rewrite !elem_of_cons, elem_of_nil. split.
    + intros [[-> | [-> | [-> | []]]] Hn]; [done | |];
        change (Py.str _) with "2" in Hn || change (Py.str _) with "3" in Hn;
        congruence.
    + intros ->. auto.
  - apply NoDup_only; [done|]. intros n. rewrite Hp.
    rewrite !elem_of_cons, elem_of_nil. split.
    + intros [[-> | [-> | [-> | []]]] Hn]; [| done |];
        change (Py.str _) with "1" in Hn || change (Py.str _) with "3" in Hn;
        congruence.
    + intros ->. auto.
Qed.

(** C10. The three operations use the same cache key for a job, the
    decimal form of its id: giving up deletes the entry under
    [str(id)], a successful callback sets [finished] under [str(id)], and
    a poll looks up each id under the very string it received and
    reports it under the integer that string reads as; so a poll that
    sends [str(id)] after the callback reports the id as finished. *)
Theorem cache_keys_coincide c r request poll a data w :
  submission_fails c -> 19 <= r ->
  names_live_job request w a ->
  form request !! "status" = Some "1" ->
  files request !! "content" = Some data ->
  getlist "a" (args poll) = [Py.str (id a)] ->
  cache (submit_attachment c {| retries := r |} a w).2 =
    delete (Py.str (id a)) (cache w) /\
  (forall poll1 s n w0,
     getlist "a" (args poll1) = [s] -> Py.int s = Some n ->
     exists containers,
       RHConversionCheck_process poll1 w0 =
         Return (jsonify_check
                   (if bool_decide (cache_get (cache w0) s = Some "finished") then [n] else [])
                   (if bool_decide (cache_get (cache w0) s = Some "pending") then [n] else [])
                   containers)) /\
  let '(_, w') := RHConversionFinished_process request w in
  cache w' = <[Py.str (id a) := {| value := "finished"; timeout := Some 900 |}]> (cache w) /\
  exists containers,
    RHConversionCheck_process poll w' = Return (jsonify_check [id a] [] containers).
Proof.
  intros Hfail Hr Hlive Hst Hdata Hpoll. split; [|split].
  - destruct (submit_failed c r a w Hfail) as (delay & rq & _ & ->).
    by replace (r + 1 >? 19) with true by (symmetry; apply Z.gtb_lt; lia).
  - intros poll1 s n w0 Hs Hn. unfold RHConversionCheck_process.
    rewrite Hs. cbn [check_results]. rewrite Hn. cbn [check_results dict_set].
    unfold with_status. cbn [List.filter snd].
    destruct (bool_decide (cache_get (cache w0) s = Some "finished")),
      (bool_decide (cache_get (cache w0) s = Some "pending")); eexists; reflexivity.
  - destruct (callback_applied request w a data Hlive Hst Hdata) as
      (w' & pdf & -> & _ & _ & _ & _ & _ & _ & _ & Hc & _).
    split; [done|].
    destruct (check_decimal poll w' [id a] Hpoll) as
      (finished & pending & containers & -> & Hndf & Hndp & Hf & Hp).
    assert (Hfin : cache_get (cache w') (Py.str (id a)) = Some "finished").
    { rewrite Hc. unfold cache_get, cache_set. by rewrite lookup_insert_eq. }
    exists containers. do 2 f_equal.
    + apply NoDup_only; [done|]. intros n. rewrite Hf, list_elem_of_singleton.
      split; [by intros [-> _] | by intros ->].
    + apply no_elem_nil. intros n [->%list_elem_of_singleton Hn]%Hp. congruence.
Qed.

End Poll.

(** ** The theorems at work on the example installation *)

Lemma names_live_job_example :
  @names_live_job Example.serializer
    (Example.callback "42.2470218374" "1")
    (Example.world Example.pending_42 [Example.slides 42 Example.materials])
    (Example.slides 42 Example.materials).
Proof.
  exists "42.2470218374", {| attachment_id := 42 |}.
  repeat split; by vm_compute.
Defined.

Lemma names_live_job_example_failed :
  @names_live_job Example.serializer
    (Example.callback "42.2470218374" "0")
    (Example.world Example.pending_42 [Example.slides 42 Example.materials])
    (Example.slides 42 Example.materials).
Proof.
  exists "42.2470218374", {| attachment_id := 42 |}.
  repeat split; by vm_compute.
Defined.

(** A token with its last character altered. *)
Lemma invalid_token_rejected_witness :
  let '(response, w') :=
    @RHConversionFinished_process Example.serializer Example.collaborators
      (Example.callback "42.2470218375" "1")
      (Example.world Example.pending_42 [Example.slides 42 Example.materials]) in
  response = Return (jsonify_success false) /\
  cache w' = Example.pending_42 /\
  session w' = {| attachments := [Example.slides 42 Example.materials]; next_id := 100 |} /\
  attachment_created w' = [].
Proof.
  apply (@invalid_token_rejected Example.serializer Example.collaborators
           (Example.callback "42.2470218375" "1")
           (Example.world Example.pending_42 [Example.slides 42 Example.materials])
           "42.2470218375"); by vm_compute.
Defined.

(** The job's folder has been deleted. *)
Lemma gone_job_acknowledged_witness :
  let '(response, w') :=
    @RHConversionFinished_process Example.serializer Example.collaborators
      (Example.callback "42.2470218374" "1")
      (Example.world Example.pending_42 [Example.slides 42 Example.trash]) in
  response = Return (jsonify_success true) /\
  cache w' = Example.pending_42 /\
  session w' = {| attachments := [Example.slides 42 Example.trash]; next_id := 100 |} /\
  attachment_created w' = [].
Proof.
  apply (@gone_job_acknowledged Example.serializer Example.collaborators
           (Example.callback "42.2470218374" "1")
           (Example.world Example.pending_42 [Example.slides 42 Example.trash])
           "42.2470218374" {| attachment_id := 42 |}); [by vm_compute.. |].
  right. exists (Example.slides 42 Example.trash). split; [by vm_compute|].
  right. reflexivity.
Defined.

Lemma failed_status_changes_nothing_witness :
  let w := Example.world Example.pending_42 [Example.slides 42 Example.materials] in
  let '(response, w') :=
    @RHConversionFinished_process Example.serializer Example.collaborators
      (Example.callback "42.2470218374" "0") w in
  response = Return (jsonify_success false) /\
  cache w' = cache w /\
  cache w' !! Py.str 42 = cache w !! Py.str 42 /\
  session w' = session w /\
  attachment_created w' = attachment_created w.
Proof.
  apply (@failed_status_changes_nothing Example.serializer Example.collaborators
           (Example.callback "42.2470218374" "0")
           (Example.world Example.pending_42 [Example.slides 42 Example.materials])
           (Example.slides 42 Example.materials) "0").
  - exact names_live_job_example_failed.
  - by vm_compute.
  - discriminate.
Defined.

Lemma success_callback_not_idempotent_witness :
  let w := Example.world Example.pending_42 [Example.slides 42 Example.materials] in
  let request := Example.callback "42.2470218374" "1" in
  let '(response1, w1) :=
    @RHConversionFinished_process Example.serializer Example.collaborators request w in
  let '(response2, w2) :=
    @RHConversionFinished_process Example.serializer Example.collaborators request w1 in
  response1 = Return (jsonify_success true) /\
  response2 = Return (jsonify_success true) /\
  cache_get (cache w1) "42" = Some "finished" /\
  cache_get (cache w2) "42" = Some "finished" /\
  exists pdf1 pdf2,
    attachments (session w1) = [Example.slides 42 Example.materials; pdf1] /\
    attachments (session w2) = [Example.slides 42 Example.materials; pdf1; pdf2] /\
    attachment_created w2 = [pdf1; pdf2] /\
    id pdf1 = 100 /\ id pdf2 = 100 + 1 /\
    id pdf1 <> id pdf2 /\
    folder pdf1 = Example.materials /\ folder pdf2 = Example.materials /\
    file_data (file pdf1) = [x25; x50; x44; x46] /\
    file_data (file pdf2) = [x25; x50; x44; x46] /\
    content_type (file pdf1) = "application/pdf" /\
    content_type (file pdf2) = "application/pdf".
Proof.
  apply (@success_callback_not_idempotent Example.serializer Example.collaborators
           (Example.callback "42.2470218374" "1")
           (Example.world Example.pending_42 [Example.slides 42 Example.materials])
           (Example.slides 42 Example.materials) [x25; x50; x44; x46]).
  - exact names_live_job_example.
  - by vm_compute.
  - by vm_compute.
Defined.

Lemma status_query_classifies_witness :
  let w := Example.world Example.cache_123 [] in
  exists finished pending containers,
    @RHConversionCheck_process Example.collaborators (Example.poll ["1"; "2"; "3"]) w =
      Return (jsonify_check finished pending containers) /\
    NoDup finished /\ NoDup pending /\
    (forall n, n ∈ finished <->
               n ∈ [1; 2; 3] /\ cache_get (cache w) (Py.str n) = Some "finished") /\
    (forall n, n ∈ pending <->
               n ∈ [1; 2; 3] /\ cache_get (cache w) (Py.str n) = Some "pending") /\
    (forall n, cache_get (cache w) (Py.str n) = None ->
               (n ∉ finished) /\ (n ∉ pending)) /\
    ([1; 2; 3] = [1; 2; 3] ->
     cache_get (cache w) "1" = Some "finished" ->
     cache_get (cache w) "2" = Some "pending" ->
     cache_get (cache w) "3" = None ->
     finished = [1] /\ pending = [2]).
Proof.
  apply (@status_query_classifies Example.collaborators
           (Example.poll ["1"; "2"; "3"]) (Example.world Example.cache_123 []) [1; 2; 3]).
  by vm_compute.
Defined.

(** The same poll, evaluated. *)
Example status_query_123 :
  @RHConversionCheck_process Example.collaborators (Example.poll ["1"; "2"; "3"])
    (Example.world Example.cache_123 []) = Return (jsonify_check [1] [2] []).
Proof. by vm_compute. Qed.

(** A poll that spells an id in another way looks that spelling up. *)
Example status_query_other_spelling :
  @RHConversionCheck_process Example.collaborators (Example.poll ["01"])
    (Example.world Example.cache_123 []) = Return (jsonify_check [] [] []).
Proof. by vm_compute. Qed.

Lemma cache_keys_coincide_witness :
  let w := Example.world Example.pending_42 [Example.slides 42 Example.materials] in
  let a := Example.slides 42 Example.materials in
  cache (@submit_attachment Example.serializer Example.collaborators
           Example.failing {| retries := 19 |} a w).2 = delete (Py.str (id a)) (cache w) /\
  (forall poll1 s n w0,
     getlist "a" (args poll1) = [s] -> Py.int s = Some n ->
     exists containers,
       @RHConversionCheck_process Example.collaborators poll1 w0 =
         Return (jsonify_check
                   (if bool_decide (cache_get (cache w0) s = Some "finished") then [n] else [])
                   (if bool_decide (cache_get (cache w0) s = Some "pending") then [n] else [])
                   containers)) /\
  let '(_, w') :=
    @RHConversionFinished_process Example.serializer Example.collaborators
      (Example.callback "42.2470218374" "1") w in
  cache w' = <[Py.str (id a) := {| value := "finished"; timeout := Some 900 |}]> (cache w) /\
  exists containers,
    @RHConversionCheck_process Example.collaborators (Example.poll ["42"]) w' =
      Return (jsonify_check [id a] [] containers).
Proof.
  apply (@cache_keys_coincide Example.serializer Example.collaborators
           Example.failing 19 (Example.callback "42.2470218374" "1") (Example.poll ["42"])
           (Example.slides 42 Example.materials) [x25; x50; x44; x46]
           (Example.world Example.pending_42 [Example.slides 42 Example.materials])).
  - by split.
  - lia.
  - exact names_live_job_example.
  - by vm_compute.
  - by vm_compute.
  - by vm_compute.
Defined.

(** * Further properties *)

(** ** The submitter: successes, mixed runs and the countdowns *)

Section SubmitterRuns.

Context `{SecureSerializer} `{Collaborators}.

Lemma submit_succeeded c r attachment w :
  submission_succeeds c ->
  exists rq,
    submit_attachment c {| retries := r |} attachment w =
      (Returned, logger (Log_submitted (id attachment)) (requests_post rq w)).
Proof.
  intros [Hm Hok]. unfold submit_attachment. rewrite Hm, Hok.
  destruct (Py.splitext _) as [name ext]. by eexists.
Qed.

(** A retry is followed by the run of the message it sent. *)
Lemma run_job_retry c later task attachment w s w1 n r' w' :
  submit_attachment c task attachment w = (Raised_Retry s, w1) ->
  run later {| retries := sig_retries s |} attachment w1 = Some (n, r', w') ->
  run_job c later task attachment w = (S n, r', w').
Proof.
  intros Hs Hrun. destruct later as [|c' later]; [done|].
  simpl in Hrun. injection Hrun as Hrun. cbn [run_job]. by rewrite Hs, Hrun.
Qed.

Lemma run_job_last c later task attachment w w1 :
  submit_attachment c task attachment w = (Returned, w1) ->
  run_job c later task attachment w = (1%nat, Returned, w1).
Proof. intros Hs. destruct later; cbn [run_job]; by rewrite Hs. Qed.

Lemma submit_failed_retry c r attachment w :
  submission_fails c -> r < 19 ->
  exists delay rq,
    retry_delay (DEBUG c) r = Some delay /\
    let s := {| sig_retries := r + 1; sig_countdown := delay |} in
    submit_attachment c {| retries := r |} attachment w =
      (Raised_Retry s,
       logger (Log_retry_in (id attachment) (r + 1) 20 delay)
         (apply_async s (requests_post rq w))).
Proof.
  intros Hc Hr. destruct (submit_failed c r attachment w Hc) as (delay & rq & Hd & Hs).
  exists delay, rq. split; [done|]. simpl in *. rewrite Hs.
  by destruct (Z.gtb_spec (r + 1) 19); [lia|].
Qed.

Lemma submit_failed_last c r attachment w :
  submission_fails c -> 19 <= r ->
  exists rq,
    submit_attachment c {| retries := r |} attachment w =
      (Returned,
       set_cache (cache_delete (Py.str (id attachment)))
         (logger (Log_giving_up (id attachment) (r + 1) 20) (requests_post rq w))).
Proof.
  intros Hc Hr. destruct (submit_failed c r attachment w Hc) as (delay & rq & Hd & Hs).
  exists rq. simpl in *. rewrite Hs.
  by destruct (Z.gtb_spec (r + 1) 19); [|lia].
Qed.

Lemma run_until_success c_ok later attachment fails : forall r w,
  Forall submission_fails fails ->
  0 <= r -> r + Z.of_nat (length fails) <= 19 ->
  submission_succeeds c_ok ->
  exists w',
    run (fails ++ c_ok :: later)%list {| retries := r |} attachment w =
      Some (S (length fails), Returned, w') /\
    cache w' = cache w /\ session w' = session w /\
    length (broker w') = (length (broker w) + length fails)%nat /\
    length (posted w') = (length (posted w) + S (length fails))%nat /\
    last (log w') = Some (Log_submitted (id attachment)).
Proof.
  induction fails as [|f fails IH]; intros r w Hall Hr Hlen Hok.
  - destruct (submit_succeeded c_ok r attachment w Hok) as (rq & Hs).
    eexists. split; [simpl; by rewrite (run_job_last _ _ _ _ _ _ Hs)|].
    simpl. rewrite length_app, last_snoc. simpl. repeat split; lia.
  - apply Forall_cons in Hall as [Hf Hall]. cbn [length] in Hlen.
    destruct (submit_failed_retry f r attachment w Hf) as (delay & rq & _ & Hs); [lia|].
    simpl in Hs.
    destruct (IH (r + 1) (logger (Log_retry_in (id attachment) (r + 1) 20 delay)
                           (apply_async {| sig_retries := r + 1; sig_countdown := delay |}
                              (requests_post rq w))) Hall)
      as (w' & Hrun & Hc & Hd & Hb & Hp & Hl); [lia | lia | done |].
    exists w'. split.
    { simpl. f_equal. by apply (run_job_retry _ _ _ _ _ _ _ _ _ _ Hs). }
    simpl in *. rewrite !length_app in *. simpl in *. repeat split; try done; lia.
Qed.

(** X1. A job whose first [k <= 19] submissions fail and whose next one
    is accepted is executed [k + 1] times and then stops, whatever
    conditions would follow: the accepted execution returns without
    sending a retry, its log record is the last one, and the job's cache
    entry is left as it was. *)
Theorem success_stops_job fails c_ok later attachment w :
  Forall submission_fails fails ->
  (length fails <= 19)%nat ->
  submission_succeeds c_ok ->
  exists w',
    run (fails ++ c_ok :: later)%list {| retries := 0 |} attachment w =
      Some (S (length fails), Returned, w') /\
    cache w' = cache w /\
    length (broker w') = (length (broker w) + length fails)%nat /\
    length (posted w') = (length (posted w) + S (length fails))%nat /\
    last (log w') = Some (Log_submitted (id attachment)).
Proof.
  intros Hall Hlen Hok.
  destruct (run_until_success c_ok later attachment fails 0 w Hall) as
    (w' & Hrun & Hc & _ & Hb & Hp & Hl); [lia | lia | done |].
  by exists w'.
Qed.

Lemma run_failing_messages debug attachment cs : forall r w,
  Forall (fun c => submission_fails c /\ DEBUG c = debug) cs ->
  0 <= r <= 19 -> 20 - r <= Z.of_nat (length cs) ->
  exists w',
    run cs {| retries := r |} attachment w = Some (Z.to_nat (20 - r), Returned, w') /\
    broker w' = (broker w ++ (retry_message debug <$> seqZ r (19 - r)))%list.
Proof.
  induction cs as [|c cs IH]; intros r w Hall Hr Hlen; [simpl in Hlen; lia|].
  apply Forall_cons in Hall as [[Hc Hdebug] Hall]. cbn [length] in Hlen.
  destruct (decide (r = 19)) as [-> | Hne].
  - destruct (submit_failed_last c 19 attachment w Hc) as (rq & Hs); [lia|].
    eexists. split; [simpl; by rewrite (run_job_last _ _ _ _ _ _ Hs)|].
    simpl. by rewrite app_nil_r.
  - destruct (submit_failed_retry c r attachment w Hc) as (delay & rq & Hd & Hs); [lia|].
    simpl in Hs. rewrite Hdebug in Hd.
    destruct (IH (r + 1) (logger (Log_retry_in (id attachment) (r + 1) 20 delay)
                           (apply_async {| sig_retries := r + 1; sig_countdown := delay |}
                              (requests_post rq w))) Hall)
      as (w' & Hrun & Hb); [lia | lia |].
    exists w'. split.
    { simpl. f_equal. replace (Z.to_nat (20 - r)) with (S (Z.to_nat (20 - (r + 1)))) by lia.
      by apply (run_job_retry _ _ _ _ _ _ _ _ _ _ Hs). }
    rewrite Hb. simpl. rewrite <- app_assoc. f_equal.
    rewrite (seqZ_cons r) by lia. rewrite fmap_cons.
    replace (Z.succ r) with (r + 1) by lia.
    replace (Z.pred (19 - r)) with (19 - (r + 1)) by lia.
    simpl. f_equal. unfold retry_message. by rewrite Hd.
Qed.

(** X2. The countdowns of a job whose every submission fails. Outside
    debug mode the nineteen retries wait 30, 60, 120, 300, 600, 1800,
    3600, 3600, 7200 and then ten times 7200 seconds, 89310 seconds in
    all before the job is given up; in debug mode each waits one second. *)
Theorem failing_job_countdowns debug cs attachment w :
  Forall (fun c => submission_fails c /\ DEBUG c = debug) cs ->
  (20 <= length cs)%nat ->
  exists w' sigs,
    run cs {| retries := 0 |} attachment w = Some (20%nat, Returned, w') /\
    broker w' = (broker w ++ sigs)%list /\
    sig_countdown <$> sigs =
      (if debug then replicate 19 1
       else [30; 60; 120; 300; 600; 1800; 3600; 3600; 7200] ++ replicate 10 7200)%list /\
    (debug = false -> foldr Z.add 0 (sig_countdown <$> sigs) = 89310).
Proof.
  intros Hall Hlen.
  destruct (run_failing_messages debug attachment cs 0 w Hall) as (w' & Hrun & Hb);
    [lia | lia |].
  exists w', (retry_message debug <$> seqZ 0 19). split; [done|]. split; [done|].
  destruct debug; split; try done; by vm_compute.
Qed.

Lemma run_mixed c20 later attachment cs : forall r w,
  Forall pause_or_failure cs ->
  0 <= r -> r + Z.of_nat (length cs) = 19 ->
  submission_fails c20 ->
  exists w',
    run (cs ++ c20 :: later)%list {| retries := r |} attachment w =
      Some (S (length cs), Returned, w') /\
    cache w' = delete (Py.str (id attachment)) (cache w) /\
    length (posted w') =
      (length (posted w) + S (length (List.filter (fun c => negb (maintenance c)) cs)))%nat /\
    last (log w') = Some (Log_giving_up (id attachment) 20 20).
Proof.
  induction cs as [|c cs IH]; intros r w Hall Hr Hlen H20.
  - simpl in Hlen. assert (r = 19) as -> by lia.
    destruct (submit_failed_last c20 19 attachment w H20) as (rq & Hs); [lia|].
    eexists. split; [simpl; by rewrite (run_job_last _ _ _ _ _ _ Hs)|].
    simpl. rewrite length_app, last_snoc. simpl. repeat split; lia.
  - apply Forall_cons in Hall as [Hc Hall]. cbn [length] in Hlen.
    destruct Hc as [Hm | Hf].
    + pose proof (submit_paused c r attachment w Hm) as Hs. simpl in Hs.
      destruct (IH (r + 1) (apply_async {| sig_retries := r + 1; sig_countdown := 900 |} w) Hall)
        as (w' & Hrun & Hc & Hp & Hl); [lia | lia | done |].
      exists w'. split.
      { simpl. f_equal. by apply (run_job_retry _ _ _ _ _ _ _ _ _ _ Hs). }
      cbn [List.filter]. rewrite Hm. simpl. by repeat split.
    + destruct (submit_failed_retry c r attachment w Hf) as (delay & rq & _ & Hs); [lia|].
      simpl in Hs.
      destruct (IH (r + 1) (logger (Log_retry_in (id attachment) (r + 1) 20 delay)
                             (apply_async {| sig_retries := r + 1; sig_countdown := delay |}
                                (requests_post rq w))) Hall)
        as (w' & Hrun & Hc & Hp & Hl); [lia | lia | done |].
      exists w'. split.
      { simpl. f_equal. by apply (run_job_retry _ _ _ _ _ _ _ _ _ _ Hs). }
      cbn [List.filter]. destruct Hf as [-> _]. simpl in *.
      rewrite length_app in Hp. simpl in Hp. repeat split; try done. lia.
Qed.

(** X3. Maintenance pauses and failed submissions draw on the same
    budget. When the first nineteen executions of a job each end in a
    pause or in a failed submission, in any mix, and the submission of the
    twentieth fails, that twentieth execution gives up: it deletes the
    job's cache entry, and the job has posted one request per failed
    submission only. *)
Theorem pauses_and_failures_share_budget cs c20 later attachment w :
  Forall pause_or_failure cs ->
  length cs = 19%nat ->
  submission_fails c20 ->
  exists w',
    run (cs ++ c20 :: later)%list {| retries := 0 |} attachment w =
      Some (20%nat, Returned, w') /\
    cache w' = cache_delete (Py.str (id attachment)) (cache w) /\
    length (posted w') =
      (length (posted w) + S (length (List.filter (fun c => negb (maintenance c)) cs)))%nat /\
    last (log w') = Some (Log_giving_up (id attachment) 20 MAX_TRIES).
Proof.
  intros Hall Hlen H20.
  destruct (run_mixed c20 later attachment cs 0 w Hall) as (w' & Hrun & Hc & Hp & Hl);
    [lia | lia | done |].
  exists w'. rewrite Hlen in Hrun. by repeat split.
Qed.

End SubmitterRuns.

(** ** Strings: substrings, splitting and extensions *)

Module StringFacts.

Lemma app_assoc (a b c : string) : (a +:+ b) +:+ c = a +:+ (b +:+ c).
Proof.
  induction a as [|x a IH]; [done|].
  change (String x ((a +:+ b) +:+ c) = String x (a +:+ b +:+ c)). by f_equal.
Qed.

Lemma app_cons a (x y : string) : String a x +:+ y = String a (x +:+ y).
Proof. reflexivity. Qed.


Lemma prefix_app n s : String.prefix n s = true <-> exists post, s = n +:+ post.
Proof.
  revert s. induction n as [|a n IH]; intros s.
  - split; [intros _; by exists s | by destruct s].
  - destruct s as [|b s]; cbn [String.prefix].
    + split; [done | intros [post Hs]; by rewrite app_cons in Hs].
    + destruct (ascii_dec a b) as [Heq | Hne].
      * subst b. rewrite IH. split; intros [post Hs]; exists post.
        -- by rewrite app_cons, Hs.
        -- rewrite app_cons in Hs. congruence.
      * split; [done | intros [post Hs]]. rewrite app_cons in Hs. congruence.
Qed.

Lemma contains_unfold n s :
  Py.contains n s =
    String.prefix n s ||
    match s with String _ s' => Py.contains n s' | EmptyString => false end.
Proof. by destruct s. Qed.

(** [needle in s] holds exactly when [s] has [needle] somewhere inside. *)
Lemma contains_spec n s :
  Py.contains n s = true <-> exists pre post, s = pre +:+ n +:+ post.
Proof.
  split.
  - induction s as [|a s IH]; rewrite contains_unfold, orb_true_iff.
    + intros [[post Hs]%prefix_app | ?]; [|done]. by exists EmptyString, post.
    + intros [[post Hs]%prefix_app | (pre & post & ->)%IH].
      * by exists EmptyString, post.
      * by exists (String a pre), post.
  - intros (pre & post & ->). induction pre as [|a pre IH].
    + rewrite contains_unfold, orb_true_iff. left. apply prefix_app. by exists post.
    + rewrite contains_unfold, orb_true_iff. by right.
Qed.






End StringFacts.

(** ** The submitter: the request it posts and what it leaves alone *)

(** X4. An answer of the conversion server counts as accepted exactly
    when it is a response whose status is outside 400..599 and whose body
    has [ok] somewhere inside; a transport error never does. *)
Theorem request_accepted_iff (r : HttpReply) :
  request_failed r = false <->
  exists code pre post,
    r = HttpResponse code (pre +:+ "ok" +:+ post) /\ ~ (400 <= code < 600).
Proof.
  destruct r as [|code body]; simpl.
  - split; [done | by intros (? & ? & ? & ? & _)].
  - rewrite orb_false_iff, negb_false_iff, StringFacts.contains_spec, andb_false_iff,
      Z.leb_gt, Z.ltb_ge.
    split.
    + intros [Hcode (pre & post & ->)]. exists code, pre, post. split; [done | lia].
    + intros (code' & pre & post & [= -> ->] & Hcode). split; [lia | by exists pre, post].
Qed.

Section SubmitterRequest.

Context `{SecureSerializer} `{Collaborators}.

(** What an execution outside maintenance does before it looks at the
    answer: it posts one request. *)
Lemma submit_posts c task attachment w :
  maintenance c = false ->
  exists root ext,
    Py.splitext (filename (file attachment)) = (root, ext) /\
    let rq := {| post_url := server_url c;
                 post_data := {| converter := "pdf";
                                 urlresponse := url_for_plugin "conversion.callback";
                                 dirresponse := dumps {| attachment_id := id attachment |}
                                                  "pdf-conversion" |};
                 uploadedfile := (secure_filename root "attachment" +:+ ext,
                                  file_data (file attachment),
                                  content_type (file attachment)) |} in
    let w' := (submit_attachment c task attachment w).2 in
    posted w' = (posted w ++ [rq])%list /\
    session w' = session w /\
    attachment_created w' = attachment_created w /\
    (cache w' = cache w \/
     cache w' = delete (Py.str (id attachment)) (cache w) /\ 19 <= retries task).
Proof.
  intros Hm. unfold submit_attachment. rewrite Hm.
  destruct (Py.splitext _) as [root ext]. exists root, ext. split; [done|].
  destruct (request_failed (reply c)); [|simpl; auto].
  destruct (retry_delay_is_Some (DEBUG c) (retries task)) as [delay ->].
  unfold Task_retry. simpl. change (MAX_TRIES - 1) with 19.
  destruct (Z.gtb_spec (retries task + 1) 19); simpl; repeat split; auto.
  right. split; [done | lia].
Qed.


(** X6. An execution never touches the cache entry of another job: for
    an id other than the attachment's, the entry under its decimal form
    is the same before and after, whatever the conditions and the retry
    counter. The only change an execution can make to the cache is to
    delete the attachment's own entry, and only at counter 19 or more. *)
Theorem submit_leaves_other_jobs c task attachment w (other : Z) :
  other <> id attachment ->
  let w' := (submit_attachment c task attachment w).2 in
  cache w' !! Py.str other = cache w !! Py.str other /\
  (cache w' = cache w \/
   cache w' = delete (Py.str (id attachment)) (cache w) /\ 19 <= retries task).
Proof.
  intros Hother. destruct (maintenance c) eqn:Hm.
  - destruct task as [r]. rewrite submit_paused by done. simpl. auto.
  - destruct (submit_posts c task attachment w Hm) as
      (root & ext & _ & _ & _ & _ & [Hc | [Hc Hr]]); simpl in *.
    + rewrite Hc. auto.
    + rewrite Hc. split; [|auto]. apply lookup_delete_ne.
      intros Heq. by apply PyFacts.str_inj in Heq.
Qed.

(** X7. The token a submission posts brings the callback back to its
    job. With a serializer that reads back what it signs, a callback that
    carries the posted token, status ["1"] and the converted content,
    for an attachment that is stored and not deleted, is answered with
    success, stores the derived attachment in the attachment's folder and
    leaves the job's cache entry at [finished], even when the submission
    itself had just given up and deleted the entry. *)
Theorem posted_token_names_job c task attachment w request data :
  (forall p salt, loads (dumps p salt) salt = Some p) ->
  maintenance c = false ->
  Attachment_get (session w) (id attachment) = Some attachment ->
  is_deleted attachment = false ->
  folder_is_deleted (folder attachment) = false ->
  form request !! "status" = Some "1" ->
  files request !! "content" = Some data ->
  let w1 := (submit_attachment c task attachment w).2 in
  (exists rq, last (posted w1) = Some rq /\
              form request !! "directory" = Some (dirresponse (post_data rq))) ->
  let '(response, w2) := RHConversionFinished_process request w1 in
  response = Return (jsonify_success true) /\
  cache_get (cache w2) (Py.str (id attachment)) = Some "finished" /\
  exists pdf,
    attachments (session w2) = (attachments (session w) ++ [pdf])%list /\
    folder pdf = folder attachment /\ file_data (file pdf) = data.
Proof.
  intros Hlaw Hm Hget Hdel Hfdel Hst Hdata w1 (rq & Hlast & Htok).
  destruct (submit_posts c task attachment w Hm) as
    (root & ext & _ & Hp & Hs & _). fold w1 in Hp, Hs.
  rewrite Hp, last_snoc in Hlast. injection Hlast as <-. simpl in Htok.
  assert (Hlive : names_live_job request w1 attachment).
  { eexists _, _. split; [exact Htok|]. rewrite Hlaw, Hs. by repeat split. }
  destruct (callback_applied request w1 attachment data Hlive Hst Hdata) as
    (w2 & pdf & -> & Hs2 & _ & Hf & _ & _ & _ & Hd & Hc & _).
  split; [done|]. split.
  - rewrite Hc. unfold cache_get, cache_set. by rewrite lookup_insert_eq.
  - exists pdf. rewrite Hs2, Hs. by repeat split.
Qed.

End SubmitterRequest.

(** ** The callback handler: errors, frame and the stored rows *)

Lemma find_app_None {A} (f : A -> bool) (l l' : list A) :
  List.find f l = None -> List.find f (l ++ l') = List.find f l'.
Proof. induction l as [|y l IH]; simpl; [done|]. by destruct (f y). Qed.

Lemma Attachment_get_fresh d i :
  (forall a, a ∈ attachments d -> id a < next_id d) ->
  next_id d <= i -> Attachment_get d i = None.
Proof.
  intros Hlt Hi. unfold Attachment_get.
  destruct (List.find _ _) as [a|] eqn:Hfind; [|done].
  apply find_some in Hfind as [Hin Heq]. apply list_elem_of_In, Hlt in Hin.
  apply Z.eqb_eq in Heq. lia.
Qed.

Section CallbackFrame.

Context `{SecureSerializer} `{Collaborators}.

(** The handler case by case: it raises and changes nothing, or answers
    and only logs, or applies the result for the live job it names. *)
Lemma callback_cases request w :
  let '(response, w') := RHConversionFinished_process request w in
  (exists key, response = Raise (BadRequestKeyError key) /\ w' = w /\
               (key = "directory" /\ form request !! "directory" = None \/
                key = "status" /\ form request !! "status" = None \/
                key = "content" /\ files request !! "content" = None)) \/
  (exists success record, response = Return (jsonify_success success) /\
                          w' = logger record w) \/
  (exists a data, names_live_job request w a /\
                  form request !! "status" = Some "1" /\
                  files request !! "content" = Some data).
Proof.
  unfold RHConversionFinished_process.
  destruct (form request !! "directory") as [token|] eqn:Htok;
    [|left; exists "directory"; by auto 10].
  destruct (loads token "pdf-conversion") as [payload|] eqn:Hload;
    [|right; left; by eexists _, _].
  destruct (Attachment_get _ _) as [a|] eqn:Hget; [|right; left; by eexists _, _].
  destruct (is_deleted a) eqn:Hdel; [right; left; by eexists _, _|].
  destruct (folder_is_deleted (folder a)) eqn:Hfdel; [right; left; by eexists _, _|].
  simpl. destruct (form request !! "status") as [status|] eqn:Hst;
    [|left; exists "status"; by auto 10].
  destruct (String.eqb_spec status "1") as [-> | Hne]; simpl;
    [|right; left; by eexists _, _].
  destruct (Py.splitext _) as [name ext].
  destruct (files request !! "content") as [data|] eqn:Hdata;
    [|left; exists "content"; by auto 10].
  right; right. exists a, data. repeat split; try done. by exists token, payload.
Qed.

(** X8. The handler fails only on a missing request field: the one
    exception it raises is the key error for [directory], [status] or
    [content], that field is indeed absent, and nothing at all has
    changed when it is raised, not even the log. *)
Theorem callback_raises_only_on_missing_field request w e w' :
  RHConversionFinished_process request w = (Raise e, w') ->
  w' = w /\
  (e = BadRequestKeyError "directory" /\ form request !! "directory" = None \/
   e = BadRequestKeyError "status" /\ form request !! "status" = None \/
   e = BadRequestKeyError "content" /\ files request !! "content" = None).
Proof.
  intros Hrun. pose proof (callback_cases request w) as Hcases. rewrite Hrun in Hcases.
  destruct Hcases as [(key & [= ->] & -> & Hkey) | [(? & ? & [=] & _) | (a & data & Hl & Hs & Hd)]].
  - split; [done|]. destruct Hkey as [[-> ?] | [[-> ?] | [-> ?]]]; auto.
  - destruct (callback_applied request w a data Hl Hs Hd) as (w2 & pdf & Hrun' & _).
    congruence.
Qed.

(** The cases of [callback_frame] in which only the log may grow. *)
Local Ltac unchanged :=
  simpl; split; [done|]; split; [done|]; split; [|split];
  [ exists []; rewrite !app_nil_r; repeat split; simpl; lia
  | done
  | intros ? Hne; by destruct Hne ].

(** X9. What the handler never does. For every request it sends no
    task message and posts nothing; it leaves every stored attachment in
    place and adds at most one, which is then also the one it announces;
    it deletes no cache entry, and the only entry it can set, to
    [finished] with the 900 second timeout, is that of the live job its
    token names. *)
Theorem callback_frame request w :
  let w' := (RHConversionFinished_process request w).2 in
  broker w' = broker w /\ posted w' = posted w /\
  (exists new, attachments (session w') = (attachments (session w) ++ new)%list /\
               attachment_created w' = (attachment_created w ++ new)%list /\
               (length new <= 1)%nat) /\
  (forall key, is_Some (cache w !! key) -> is_Some (cache w' !! key)) /\
  (forall key, cache w' !! key <> cache w !! key ->
     cache w' !! key = Some {| value := "finished"; timeout := Some 900 |} /\
     exists a, names_live_job request w a /\ key = Py.str (id a)).
Proof.
  pose proof (callback_cases request w) as Hcases.
  destruct (RHConversionFinished_process request w) as [response w'] eqn:Hrun. simpl.
  destruct Hcases as [(key & _ & -> & _) | [(? & ? & _ & ->) | (a & data & Hl & Hs & Hd)]].
  - by unchanged.
  - by unchanged.
  - destruct (callback_applied request w a data Hl Hs Hd) as
      (w2 & pdf & Hrun' & Hs2 & _ & _ & _ & _ & _ & _ & Hc & Hann & _).
    rewrite Hrun in Hrun'. injection Hrun' as _ <-.
    assert (Hb : broker w' = broker w /\ posted w' = posted w).
    { revert Hrun. unfold RHConversionFinished_process.
      destruct Hl as (token & payload & -> & -> & -> & -> & ->). rewrite Hs, Hd. simpl.
      destruct (Py.splitext _). by intros [= _ <-]. }
    destruct Hb as [Hb Hp]. split; [done|]. split; [done|]. split; [|split].
    + exists [pdf]. rewrite Hs2, Hann. by repeat split.
    + intros key Hkey. rewrite Hc. unfold cache_set.
      destruct (decide (Py.str (id a) = key)) as [<- | Hne].
      * by rewrite lookup_insert_eq.
      * by rewrite lookup_insert_ne.
    + intros key. rewrite Hc. unfold cache_set.
      destruct (decide (Py.str (id a) = key)) as [<- | Hne].
      * rewrite lookup_insert_eq. intros _. split; [done|]. by exists a.
      * by rewrite lookup_insert_ne.
Qed.

(** X10. The handler keeps the stored attachments well formed: when
    their ids are distinct and below the next id of the sequence, they
    still are after any request. *)
Theorem callback_keeps_db_wf request w :
  db_wf (session w) ->
  db_wf (session (RHConversionFinished_process request w).2).
Proof.
  intros [Hnd Hlt]. pose proof (callback_cases request w) as Hcases.
  destruct (RHConversionFinished_process request w) as [response w'] eqn:Hrun. simpl.
  destruct Hcases as [(key & _ & -> & _) | [(? & ? & _ & ->) | (a & data & Hl & Hs & Hd)]];
    [done | done |].
  destruct (callback_applied request w a data Hl Hs Hd) as
    (w2 & pdf & Hrun' & Hs2 & Hid & _).
  rewrite Hrun in Hrun'. injection Hrun' as _ <-. rewrite Hs2. split; simpl.
  - rewrite fmap_app. change (id <$> [pdf]) with [id pdf].
    apply NoDup_app. split; [done|]. split; [|apply NoDup_singleton].
    intros i (b & Hi & Hb)%list_elem_of_fmap Hi'%list_elem_of_singleton.
    apply Hlt in Hb. lia.
  - intros b [Hb | ->%list_elem_of_singleton]%elem_of_app; [apply Hlt in Hb|]; lia.
Qed.

(** X11. Storing and finding the derived attachment. On a well-formed
    store, after a success callback for a live job, [Attachment.get] of
    the id the sequence had reached finds the derived attachment, which
    is live and sits in the source's folder, and finds for every other id
    what it found before. *)
Theorem derived_attachment_is_found request w a data :
  db_wf (session w) ->
  names_live_job request w a ->
  form request !! "status" = Some "1" ->
  files request !! "content" = Some data ->
  let w' := (RHConversionFinished_process request w).2 in
  (exists pdf, Attachment_get (session w') (next_id (session w)) = Some pdf /\
               id pdf = next_id (session w) /\
               is_deleted pdf = false /\ folder pdf = folder a /\
               file_data (file pdf) = data) /\
  (forall i, i <> next_id (session w) ->
             Attachment_get (session w') i = Attachment_get (session w) i).
Proof.
  intros [Hnd Hlt] Hl Hs Hd.
  destruct (callback_applied request w a data Hl Hs Hd) as
    (w2 & pdf & -> & Hs2 & Hid & Hf & Hdel & _ & _ & Hdata & _).
  simpl. rewrite Hs2. unfold Attachment_get. simpl. split.
  - exists pdf. rewrite find_app_None by (by apply Attachment_get_fresh).
    simpl. rewrite Hid, Z.eqb_refl. by repeat split.
  - intros i Hi. destruct (List.find (fun b => id b =? i) (attachments (session w)))
      as [b|] eqn:Hfind.
    + by apply find_app_Some.
    + rewrite find_app_None by done. simpl. rewrite Hid.
      by destruct (Z.eqb_spec (next_id (session w)) i); [congruence|].
Qed.

End CallbackFrame.

(** ** The status query: any spelling of the ids *)

Lemma dict_set_elem_key {V} (d : list (Z * V)) (k : Z) (v0 : V) (n : Z) (v : V) :
  NoDup d.*1 ->
  (n, v) ∈ dict_set k v0 d <-> if decide (n = k) then v = v0 else (n, v) ∈ d.
Proof.
  induction d as [|[k1 v1] d IH]; intros Hnd; cbn [dict_set].
  - rewrite list_elem_of_singleton.
    destruct (decide (n = k)) as [-> | Hn]; split.
    + by intros [= ->].
    + by intros ->.
    + by intros [= ? _].
    + by intros ?%elem_of_nil.
  - change (NoDup (k1 :: d.*1)) in Hnd. apply NoDup_cons in Hnd as [Hk1 Hnd].
    specialize (IH Hnd).
    destruct (Z.eqb_spec k1 k) as [Heq | Hne]; destruct (decide (n = k)) as [Hn | Hn];
      rewrite ?elem_of_cons; rewrite ?elem_of_cons in IH.
    + subst k1 n. split.
      * intros [Hv | Hin]; [congruence|].
        destruct Hk1. apply list_elem_of_fmap. by exists (k, v).
      * intros ->. by left.
    + subst k1. split; (intros [Hv | Hin]; [congruence | by right]).
    + subst n. rewrite IH. split; [intros [Hv | Hv]; congruence | by right].
    + by rewrite IH.
Qed.

Lemma dict_set_elem_weak {V} (d : list (Z * V)) (k : Z) (v : V) x :
  x ∈ dict_set k v d -> x ∈ d \/ x = (k, v).
Proof.
  induction d as [|[k1 v1] d IH]; cbn [dict_set].
  - intros ->%list_elem_of_singleton. by right.
  - destruct (k1 =? k); rewrite !elem_of_cons; [tauto|].
    intros [-> | Hin]; [by left; left|]. destruct (IH Hin); auto.
Qed.

Lemma last_spelling_cons n s ids :
  last_spelling n (s :: ids) =
    match last_spelling n ids with
    | Some s' => Some s'
    | None => if bool_decide (Py.int s = Some n) then Some s else None
    end.
Proof.
  unfold last_spelling. cbn [List.filter].
  destruct (bool_decide (Py.int s = Some n)); [by rewrite last_cons|].
  by destruct (last _).
Qed.

(** The dict of the query, for any spelling of the ids. *)
Lemma check_results_spec (c : gmap string CacheEntry) (ids : list string) :
  forall acc results,
    check_results c ids acc = Return results ->
    NoDup acc.*1 ->
    NoDup results.*1 /\
    Forall (fun s => is_Some (Py.int s)) ids /\
    forall n v, (n, v) ∈ results <->
                match last_spelling n ids with
                | Some s => v = cache_get c s
                | None => (n, v) ∈ acc
                end.
Proof.
  induction ids as [|s ids IH]; intros acc results; cbn [check_results].
  - intros [= <-] Hnd. by repeat split.
  - destruct (Py.int s) as [k|] eqn:Hs; [|done]. intros Hrun Hnd.
    destruct (IH _ _ Hrun (dict_set_NoDup acc k _ Hnd)) as (Hnd' & Hall & Hres).
    split; [done|]. split; [apply Forall_cons; split; [by eexists | done]|].
    intros n v. rewrite Hres, last_spelling_cons, Hs.
    destruct (last_spelling n ids); [done|].
    rewrite dict_set_elem_key by done.
    destruct (decide (n = k)) as [-> | Hne].
    + by rewrite bool_decide_eq_true_2.
    + by rewrite bool_decide_eq_false_2 by congruence.
Qed.


Section PollAnySpelling.

Context `{Collaborators}.

Lemma check_returns request w finished pending containers :
  RHConversionCheck_process request w = Return (jsonify_check finished pending containers) ->
  exists results,
    check_results (cache w) (getlist "a" (args request)) [] = Return results /\
    finished = with_status "finished" results /\
    pending = with_status "pending" results.
Proof.
  unfold RHConversionCheck_process.
  destruct (check_results _ _ _) as [results|e]; [|done].
  intros [= <- <- _]. by exists results.
Qed.


(** X13. Whatever the request, no id is reported twice and none is
    reported both finished and pending. *)
Theorem poll_lists_disjoint request w finished pending containers :
  RHConversionCheck_process request w = Return (jsonify_check finished pending containers) ->
  NoDup finished /\ NoDup pending /\
  forall n, n ∈ finished -> n ∉ pending.
Proof.
  intros (results & Hrun & -> & ->)%check_returns.
  apply check_results_spec in Hrun as (Hnd & _ & Hres); [|apply NoDup_nil_2].
  split; [by apply with_status_NoDup|]. split; [by apply with_status_NoDup|].
  intros n Hf%elem_of_with_status Hp%elem_of_with_status.
  apply Hres in Hf, Hp. destruct (last_spelling n _); [congruence|].
  by apply elem_of_nil in Hf.
Qed.

(** X14. When several parameters read as the same integer, the last
    of them decides: an id is reported finished (pending) exactly when the
    cache holds [finished] ([pending]) under the last parameter that reads
    as this id, under that very spelling. *)
Theorem poll_last_spelling_decides request w finished pending containers :
  RHConversionCheck_process request w = Return (jsonify_check finished pending containers) ->
  forall n,
    (n ∈ finished <->
     exists s, last_spelling n (getlist "a" (args request)) = Some s /\
               cache_get (cache w) s = Some "finished") /\
    (n ∈ pending <->
     exists s, last_spelling n (getlist "a" (args request)) = Some s /\
               cache_get (cache w) s = Some "pending").
Proof.
  intros (results & Hrun & -> & ->)%check_returns n.
  apply check_results_spec in Hrun as (_ & _ & Hres); [|apply NoDup_nil_2].
  rewrite !elem_of_with_status, !Hres.
  destruct (last_spelling n _) as [s|]; split; split.
  - intros Hs. by exists s.
  - by intros (s' & [= <-] & ->).
  - intros Hs. by exists s.
  - by intros (s' & [= <-] & ->).
  - by intros ?%elem_of_nil.
  - by intros (? & ? & _).
  - by intros ?%elem_of_nil.
  - by intros (? & ? & _).
Qed.

Lemma containers_fold user (l : list Attachment) : forall acc x,
  x ∈ foldl (fun containers attachment =>
               if negb (can_view (folder attachment) user) then containers
               else dict_set (id attachment)
                      (render_attachments_folders (folder_object (folder attachment)))
                      containers) acc l ->
  x ∈ acc \/
  exists a, a ∈ l /\ can_view (folder a) user = true /\
            x = (id a, render_attachments_folders (folder_object (folder a))).
Proof.
  induction l as [|a l IH]; intros acc x; simpl; [by left|].
  intros [Hacc | (b & Hb & Hview & ->)]%IH.
  - destruct (can_view (folder a) user) eqn:Hview; simpl in Hacc.
    + apply dict_set_elem_weak in Hacc as [Hacc | ->]; [by left|].
      right. exists a. split; [left | done].
    + by left.
  - right. exists b. split; [by right | done].
Qed.

Lemma containers_fold_keys user (l : list Attachment) : forall acc a,
  (a ∈ l /\ can_view (folder a) user = true \/ id a ∈ acc.*1) ->
  id a ∈ (foldl (fun containers attachment =>
                   if negb (can_view (folder attachment) user) then containers
                   else dict_set (id attachment)
                          (render_attachments_folders (folder_object (folder attachment)))
                          containers) acc l).*1.
Proof.
  induction l as [|b l IH]; intros acc a; simpl.
  - intros [[?%elem_of_nil _] | Hacc]; done.
  - intros Hcases. apply IH.
    destruct Hcases as [[[-> | Hin]%elem_of_cons Hview] | Hacc].
    + right. rewrite Hview. simpl. rewrite dict_set_keys.
      destruct (bool_decide_reflect (id b ∈ acc.*1)); [done|].
      apply elem_of_app. right. left.
    + by left.
    + right. destruct (negb _); [done|]. rewrite dict_set_keys.
      destruct (bool_decide_reflect (id b ∈ acc.*1)); [done|].
      apply elem_of_app. by left.
Qed.

(** X15. The rendered containers are those of the finished attachments
    the user may view. Every entry of [containers] is keyed by a finished
    id, belongs to a stored attachment with that id whose folder the
    session user can view, and holds the rendering of that folder's
    object; and every stored attachment with a finished id and a viewable
    folder has an entry. *)
Theorem poll_containers_only_viewable request w finished pending containers :
  RHConversionCheck_process request w = Return (jsonify_check finished pending containers) ->
  (forall k html, (k, html) ∈ containers ->
     k ∈ finished /\
     exists a, a ∈ attachments (session w) /\ id a = k /\
               can_view (folder a) (session_user request) = true /\
               html = render_attachments_folders (folder_object (folder a))) /\
  (forall a, a ∈ attachments (session w) -> id a ∈ finished ->
             can_view (folder a) (session_user request) = true ->
             id a ∈ containers.*1).
Proof.
  unfold RHConversionCheck_process.
  destruct (check_results _ _ _) as [results|e]; [|done].
  intros [= <- _ <-]. split.
  - intros k html Hin. destruct (bool_decide _); [by apply elem_of_nil in Hin|].
    apply containers_fold in Hin as [?%elem_of_nil | (a & Ha & Hview & [= -> ->])]; [done|].
    apply list_elem_of_In, filter_In in Ha as [Ha Hfin].
    apply bool_decide_eq_true in Hfin. split; [done|].
    exists a. split; [by apply list_elem_of_In | done].
  - intros a Ha Hfin Hview.
    destruct (bool_decide_reflect (with_status "finished" results = [])) as [Hnil | _].
    + rewrite Hnil in Hfin. by apply elem_of_nil in Hfin.
    + apply containers_fold_keys. left. split; [|done].
      apply list_elem_of_In, filter_In. split; [by apply list_elem_of_In|].
      by apply bool_decide_eq_true.
Qed.

End PollAnySpelling.

(** ** The category export *)


Module LiveSyncFacts.

Import LiveSync.

Lemma truthy_spec s : truthy s = true <-> exists p, s = Some p /\ p <> EmptyString.
Proof.
  destruct s as [[|a p]|]; simpl; split; try done.
  - by intros (p & [= <-] & ?).
  - intros _. by eexists.
  - by intros (p & ? & _).
Qed.

(** X16. The protection check passes exactly when the request carries
    credentials whose password is not empty and whose user name and
    password are the configured ones. So while no password, or the empty
    one, is configured, every request is refused, with or without
    credentials. *)
Theorem check_protection_passes_iff settings auth :
  (RHCategoriesJSON_checkProtection settings auth = inr tt <->
   exists pass,
     pass <> EmptyString /\
     auth = Some {| username := settings_username settings; password := Some pass |} /\
     settings_password settings = Some pass) /\
  (truthy (settings_password settings) = false ->
   exists response,
     RHCategoriesJSON_checkProtection settings auth = inl response /\ status response = 401).
Proof.
  assert (Hiff : RHCategoriesJSON_checkProtection settings auth = inr tt <->
                 exists pass, pass <> EmptyString /\
                   auth = Some {| username := settings_username settings;
                                  password := Some pass |} /\
                   settings_password settings = Some pass).
  { unfold RHCategoriesJSON_checkProtection. destruct auth as [[user pw]|]; simpl.
    - destruct (truthy pw) eqn:Hpw; simpl.
      + apply truthy_spec in Hpw as (p & -> & Hp).
        destruct (bool_decide_reflect (user = settings_username settings)) as [-> | Hu]; simpl.
        * destruct (bool_decide_reflect (Some p = settings_password settings)) as [Heq | Hne];
            simpl; split; try done.
          -- intros _. by exists p.
          -- intros (pass & _ & [= ->] & Hs). congruence.
        * split; [done|]. intros (pass & _ & [= ? _] & _). congruence.
      + split; [done|]. intros (pass & Hp & [= _ ->] & _).
        assert (truthy (Some pass) = true) by (apply truthy_spec; by exists pass).
        congruence.
    - split; [done|]. by intros (pass & _ & ? & _). }
  split; [done|]. intros Hempty.
  destruct (RHCategoriesJSON_checkProtection settings auth) as [response|[]] eqn:Hrun.
  - exists response. split; [done|]. revert Hrun. unfold RHCategoriesJSON_checkProtection.
    destruct (match auth with Some _ => _ | None => _ end); [|done]. by intros [= <-].
  - destruct (proj1 Hiff eq_refl) as (pass & Hp & _ & Hs). rewrite Hs in Hempty.
    assert (truthy (Some pass) = true) by (apply truthy_spec; by exists pass).
    congruence.
Qed.





End LiveSyncFacts.

(** ** The derived attachment *)

Section DerivedAttachment.

Context `{SecureSerializer} `{Collaborators}.


End DerivedAttachment.

(** ** The further theorems at work on the example installation *)

Lemma example_serializer_law p salt :
  @loads Example.serializer (@dumps Example.serializer p salt) salt = Some p.
Proof. apply decode_encode. Qed.

Lemma success_stops_job_witness :
  let w := Example.world Example.pending_42 [] in
  exists w',
    @run Example.serializer Example.collaborators
      ([Example.failing; Example.failing] ++ Example.accepted :: [Example.failing])%list
      {| retries := 0 |} (Example.slides 42 Example.materials) w =
      Some (3%nat, Returned, w') /\
    cache w' = cache w /\
    length (broker w') = 2%nat /\
    length (posted w') = 3%nat /\
    last (log w') = Some (Log_submitted 42).
Proof.
  apply (@success_stops_job Example.serializer Example.collaborators
           [Example.failing; Example.failing] Example.accepted [Example.failing]
           (Example.slides 42 Example.materials) (Example.world Example.pending_42 [])).
  - repeat (apply Forall_cons; split; [by split|]). apply Forall_nil_2.
  - simpl. lia.
  - by split.
Defined.

Lemma failing_job_countdowns_witness :
  exists w' sigs,
    @run Example.serializer Example.collaborators (replicate 20 Example.failing)
      {| retries := 0 |} (Example.slides 42 Example.materials)
      (Example.world Example.pending_42 []) = Some (20%nat, Returned, w') /\
    broker w' = sigs /\
    sig_countdown <$> sigs =
      ([30; 60; 120; 300; 600; 1800; 3600; 3600; 7200] ++ replicate 10 7200)%list /\
    (false = false -> foldr Z.add 0 (sig_countdown <$> sigs) = 89310).
Proof.
  apply (@failing_job_countdowns Example.serializer Example.collaborators false
           (replicate 20 Example.failing) (Example.slides 42 Example.materials)
           (Example.world Example.pending_42 [])).
  - apply Forall_replicate. by repeat split.
  - rewrite length_replicate. lia.
Defined.

Lemma pauses_and_failures_share_budget_witness :
  let cs := (replicate 10 Example.paused ++ replicate 9 Example.failing)%list in
  let w := Example.world Example.pending_42 [] in
  exists w',
    @run Example.serializer Example.collaborators (cs ++ Example.failing :: [])%list
      {| retries := 0 |} (Example.slides 42 Example.materials) w =
      Some (20%nat, Returned, w') /\
    cache w' = cache_delete (Py.str 42) (cache w) /\
    length (posted w') =
      (0 + S (length (List.filter (fun c => negb (maintenance c)) cs)))%nat /\
    last (log w') = Some (Log_giving_up 42 20 MAX_TRIES).
Proof.
  apply (@pauses_and_failures_share_budget Example.serializer Example.collaborators
           (replicate 10 Example.paused ++ replicate 9 Example.failing)%list
           Example.failing [] (Example.slides 42 Example.materials)
           (Example.world Example.pending_42 [])).
  - apply Forall_app. split; apply Forall_replicate; [by left | right; by split].
  - reflexivity.
  - by split.
Defined.

Lemma request_accepted_iff_witness :
  request_failed (HttpResponse 200 "it is ok!") = false.
Proof.
  apply (proj2 (request_accepted_iff (HttpResponse 200 "it is ok!"))).
  exists 200, "it is ", "!". split; [reflexivity | lia].
Defined.


Lemma submit_leaves_other_jobs_witness :
  let w := Example.world Example.pending_42 [] in
  let w' := (@submit_attachment Example.serializer Example.collaborators
               Example.failing {| retries := 19 |} (Example.slides 7 Example.materials) w).2 in
  cache w' !! Py.str 42 = cache w !! Py.str 42 /\
  (cache w' = cache w \/
   cache w' = delete (Py.str 7) (cache w) /\ 19 <= 19).
Proof.
  apply (@submit_leaves_other_jobs Example.serializer Example.collaborators
           Example.failing {| retries := 19 |} (Example.slides 7 Example.materials)
           (Example.world Example.pending_42 []) 42).
  simpl. lia.
Defined.

Lemma posted_token_names_job_witness :
  let a := Example.slides 42 Example.materials in
  let w := Example.world Example.pending_42 [a] in
  let request := Example.callback "42.2470218374" "1" in
  let w1 := (@submit_attachment Example.serializer Example.collaborators
               Example.failing {| retries := 19 |} a w).2 in
  let '(response, w2) :=
    @RHConversionFinished_process Example.serializer Example.collaborators request w1 in
  response = Return (jsonify_success true) /\
  cache_get (cache w2) (Py.str 42) = Some "finished" /\
  exists pdf,
    attachments (session w2) = (attachments (session w) ++ [pdf])%list /\
    folder pdf = folder a /\ file_data (file pdf) = [x25; x50; x44; x46].
Proof.
  apply (@posted_token_names_job Example.serializer Example.collaborators
           Example.failing {| retries := 19 |} (Example.slides 42 Example.materials)
           (Example.world Example.pending_42 [Example.slides 42 Example.materials])
           (Example.callback "42.2470218374" "1") [x25; x50; x44; x46]).
  - exact example_serializer_law.
  - reflexivity.
  - by vm_compute.
  - reflexivity.
  - reflexivity.
  - by vm_compute.
  - by vm_compute.
  - eexists. split; by vm_compute.
Defined.

Lemma callback_raises_only_on_missing_field_witness :
  let w := Example.world Example.pending_42 [Example.slides 42 Example.materials] in
  let request := {| form := {[ "directory" := "42.2470218374" ]}; files := ∅;
                    args := []; session_user := None |} in
  w = w /\
  (BadRequestKeyError "status" = BadRequestKeyError "directory" /\
     form request !! "directory" = None \/
   BadRequestKeyError "status" = BadRequestKeyError "status" /\
     form request !! "status" = None \/
   BadRequestKeyError "status" = BadRequestKeyError "content" /\
     files request !! "content" = None).
Proof.
  apply (@callback_raises_only_on_missing_field Example.serializer Example.collaborators
           {| form := {[ "directory" := "42.2470218374" ]}; files := ∅;
              args := []; session_user := None |}
           (Example.world Example.pending_42 [Example.slides 42 Example.materials])).
  by vm_compute.
Defined.

Lemma callback_frame_witness :
  let w := Example.world Example.pending_42 [Example.slides 42 Example.materials] in
  let request := Example.callback "42.2470218374" "1" in
  let w' := (@RHConversionFinished_process Example.serializer Example.collaborators
               request w).2 in
  broker w' = broker w /\ posted w' = posted w /\
  (exists new, attachments (session w') = (attachments (session w) ++ new)%list /\
               attachment_created w' = (attachment_created w ++ new)%list /\
               (length new <= 1)%nat) /\
  (forall key, is_Some (cache w !! key) -> is_Some (cache w' !! key)) /\
  (forall key, cache w' !! key <> cache w !! key ->
     cache w' !! key = Some {| value := "finished"; timeout := Some 900 |} /\
     exists a, @names_live_job Example.serializer request w a /\ key = Py.str (id a)).
Proof.
  exact (@callback_frame Example.serializer Example.collaborators
           (Example.callback "42.2470218374" "1")
           (Example.world Example.pending_42 [Example.slides 42 Example.materials])).
Defined.

Lemma db_wf_example :
  db_wf (session (Example.world Example.pending_42 [Example.slides 42 Example.materials])).
Proof.
  split; simpl.
  - apply NoDup_singleton.
  - intros a ->%list_elem_of_singleton. simpl. lia.
Defined.

Lemma callback_keeps_db_wf_witness :
  db_wf (session (@RHConversionFinished_process Example.serializer Example.collaborators
                    (Example.callback "42.2470218374" "1")
                    (Example.world Example.pending_42
                       [Example.slides 42 Example.materials])).2).
Proof.
  apply (@callback_keeps_db_wf Example.serializer Example.collaborators).
  exact db_wf_example.
Defined.

Lemma derived_attachment_is_found_witness :
  let w := Example.world Example.pending_42 [Example.slides 42 Example.materials] in
  let a := Example.slides 42 Example.materials in
  let w' := (@RHConversionFinished_process Example.serializer Example.collaborators
               (Example.callback "42.2470218374" "1") w).2 in
  (exists pdf, Attachment_get (session w') (next_id (session w)) = Some pdf /\
               id pdf = next_id (session w) /\
               is_deleted pdf = false /\ folder pdf = folder a /\
               file_data (file pdf) = [x25; x50; x44; x46]) /\
  (forall i, i <> next_id (session w) ->
             Attachment_get (session w') i = Attachment_get (session w) i).
Proof.
  apply (@derived_attachment_is_found Example.serializer Example.collaborators
           (Example.callback "42.2470218374" "1")
           (Example.world Example.pending_42 [Example.slides 42 Example.materials])
           (Example.slides 42 Example.materials) [x25; x50; x44; x46]).
  - exact db_wf_example.
  - exact names_live_job_example.
  - by vm_compute.
  - by vm_compute.
Defined.



Lemma poll_lists_disjoint_witness :
  NoDup [1] /\ NoDup [2] /\ forall n, n ∈ [1] -> n ∉ [2].
Proof.
  apply (@poll_lists_disjoint Example.collaborators (Example.poll ["1"; "2"; "3"; "01"; "1"])
           (Example.world Example.cache_123 []) [1] [2] []).
  by vm_compute.
Defined.

Lemma poll_last_spelling_decides_witness :
  let request := Example.poll ["1"; "2"; "01"] in
  let w := Example.world Example.cache_123 [] in
  (1 ∈ @nil Z <->
   exists s, last_spelling 1 (getlist "a" (args request)) = Some s /\
             cache_get (cache w) s = Some "finished") /\
  (1 ∈ [2] <->
   exists s, last_spelling 1 (getlist "a" (args request)) = Some s /\
             cache_get (cache w) s = Some "pending").
Proof.
  apply (@poll_last_spelling_decides Example.collaborators (Example.poll ["1"; "2"; "01"])
           (Example.world Example.cache_123 []) [] [2] []).
  by vm_compute.
Defined.

Lemma poll_containers_only_viewable_witness :
  let request := Example.poll ["42"] in
  let w := Example.world
             {[ "42" := {| value := "finished"; timeout := Some 900 |} ]}
             [Example.slides 42 Example.materials] in
  (forall k html, (k, html) ∈ [(42, "<div>11</div>")] ->
     k ∈ [42] /\
     exists a, a ∈ attachments (session w) /\ id a = k /\
               @can_view Example.collaborators (folder a) (session_user request) = true /\
               html = @render_attachments_folders Example.collaborators
                        (folder_object (folder a))) /\
  (forall a, a ∈ attachments (session w) -> id a ∈ [42] ->
             @can_view Example.collaborators (folder a) (session_user request) = true ->
             id a ∈ [(42, "<div>11</div>")].*1).
Proof.
  apply (@poll_containers_only_viewable Example.collaborators (Example.poll ["42"])
           (Example.world {[ "42" := {| value := "finished"; timeout := Some 900 |} ]}
              [Example.slides 42 Example.materials])
           [42] [] [(42, "<div>11</div>")]).
  by vm_compute.
Defined.

Lemma check_protection_passes_iff_witness :
  LiveSync.RHCategoriesJSON_checkProtection Example.search_settings
    (Some {| LiveSync.username := Some "cernsearch"; LiveSync.password := Some "s3cret" |})
    = inr tt /\
  exists response,
    LiveSync.RHCategoriesJSON_checkProtection Example.unset_settings
      (Some {| LiveSync.username := Some "cernsearch";
               LiveSync.password := Some EmptyString |}) = inl response /\
    LiveSync.status response = 401.
Proof.
  split.
  - apply (proj1 (LiveSyncFacts.check_protection_passes_iff Example.search_settings _)).
    exists "s3cret". by repeat split.
  - apply (proj2 (LiveSyncFacts.check_protection_passes_iff Example.unset_settings _)).
    reflexivity.
Defined.

